(** * gocryptfs: the reverse-mode overlay and the config loading front end

    A shallow embedding of

    - [internal/fusefrontend_reverse/rfs.go]: the FUSE handlers [GetAttr],
      [Access], [Open] and [OpenDir] of the reverse filesystem;
    - the command line front end ([package main]): [loadConfig] and
      [changePassword].

    The handlers of [rfs.go] are functions of the host they run on: the
    loopback filesystem, the system calls and the helper methods of
    [reverseFS] that live in other files of the package are variables of
    a section.  The programs of [package main] talk to a terminal, exit
    the process and call into [cryptfs]; they are written in a small
    monad of calls whose runs are traces. *)

From Stdlib Require Import ZArith List Bool String Ascii Lia.
From Stdlib Require DecimalString.
Import ListNotations.

Local Open Scope string_scope.
Local Open Scope Z_scope.

Set Implicit Arguments.

(** ** Go library functions used by the handlers *)

Module GoLib.

(** [strings.HasSuffix]:
    [len(s) >= len(suffix) && s[len(s)-len(suffix):] == suffix]. *)
Definition HasSuffix (s suffix : string) : bool :=
  (String.length suffix <=? String.length s)%nat &&
  String.eqb
    (substring (String.length s - String.length suffix)
               (String.length suffix) s)
    suffix.

Definition is_slash (c : ascii) : bool := Ascii.eqb c "/"%char.

(** [path.Split]: [i := strings.LastIndex(path, "/")], then
    [path[:i+1], path[i+1:]].  [split_dir] is the first component. *)
Fixpoint split_dir (l : list ascii) : list ascii :=
  match l with
  | [] => []
  | c :: l' =>
      if existsb is_slash l' then c :: split_dir l'
      else if is_slash c then [c] else []
  end.

(** The buffer of [path.Clean] is kept in reverse, last byte first.
    [out.w--; for out.w > dotdot && out.index(out.w) != '/' { out.w-- }]:
    bytes are dropped from the end until a slash has been dropped or only
    [dotdot] bytes are left. *)
Fixpoint backtrack (rout : list ascii) (dotdot : nat) : list ascii :=
  match rout with
  | [] => []
  | c :: rout' =>
      if (dotdot <? List.length rout')%nat && negb (is_slash c)
      then backtrack rout' dotdot
      else rout'
  end.

(** [for ; r < n && path[r] != '/'; r++ { out.append(path[r]) }] *)
Fixpoint copy_element (rest rout : list ascii) : list ascii * list ascii :=
  match rest with
  | [] => ([], rout)
  | c :: rest' =>
      if is_slash c then (rest, rout) else copy_element rest' (c :: rout)
  end.

Definition at_element_end (rest : list ascii) : bool :=
  match rest with
  | [] => true
  | c :: _ => is_slash c
  end.

(** The main loop of [path.Clean]; [rest] is [path[r:]], and every turn
    consumes at least one byte of it. *)
Fixpoint clean_loop (fuel : nat) (rooted : bool) (rest rout : list ascii)
    (dotdot : nat) : list ascii :=
  match fuel with
  | O => rout
  | S fuel' =>
      match rest with
      | [] => rout
      | c :: rest1 =>
          if is_slash c then
            (* empty path element *)
            clean_loop fuel' rooted rest1 rout dotdot
          else if Ascii.eqb c "."%char && at_element_end rest1 then
            (* . element *)
            clean_loop fuel' rooted rest1 rout dotdot
          else if Ascii.eqb c "."%char
                  && match rest1 with
                     | c1 :: rest2 =>
                         Ascii.eqb c1 "."%char && at_element_end rest2
                     | [] => false
                     end then
            (* .. element: remove to last / *)
            let rest2 := tl rest1 in
            if (dotdot <? List.length rout)%nat then
              clean_loop fuel' rooted rest2 (backtrack rout dotdot) dotdot
            else if negb rooted then
              let rout1 :=
                if (0 <? List.length rout)%nat then "/"%char :: rout
                else rout in
              let rout2 := "."%char :: "."%char :: rout1 in
              clean_loop fuel' rooted rest2 rout2 (List.length rout2)
            else
              clean_loop fuel' rooted rest2 rout dotdot
          else
            (* real path element; add slash if needed *)
            let w := List.length rout in
            let rout1 :=
              if (rooted && negb (w =? 1)%nat)
                 || (negb rooted && negb (w =? 0)%nat)
              then "/"%char :: rout else rout in
            let '(rest', rout2) := copy_element rest rout1 in
            clean_loop fuel' rooted rest' rout2 dotdot
      end
  end.

(** [path.Clean] *)
Definition Clean (path : string) : string :=
  match list_ascii_of_string path with
  | [] => "."
  | (c :: _) as l =>
      let rooted := is_slash c in
      let out :=
        if rooted
        then clean_loop (List.length l) true (tl l) ["/"%char] 1
        else clean_loop (List.length l) false l [] 0 in
      match out with
      | [] => "."
      | _ => string_of_list_ascii (rev out)
      end
  end.

(** [path.Dir]: [dir, _ := Split(path); return Clean(dir)]. *)
Definition Dir (path : string) : string :=
  Clean (string_of_list_ascii (split_dir (list_ascii_of_string path))).

End GoLib.

(** ** [internal/fusefrontend_reverse/rfs.go] *)

Module ReverseFS.

Import GoLib.

(** *** Constants and types of [syscall] and [go-fuse] *)

(** [fuse.Status] is an errno; [OK] is zero. *)
Definition Status := Z.
Definition OK : Status := 0.
Definition EPERM : Status := 1.
Definition ENOENT : Status := 2.
Definition EACCES : Status := 13.
Definition ENOTDIR : Status := 20.
Definition EINVAL : Status := 22.
Definition ENOSYS : Status := 38.

(** [func (code Status) Ok() bool] *)
Definition Ok (code : Status) : bool := code =? OK.

Definition S_IFMT : Z := 0xf000.
Definition S_IFDIR : Z := 0x4000.
Definition S_IFREG : Z := 0x8000.
(** [S_IXUSR] is octal 0100. *)
Definition S_IXUSR : Z := 0x40.

Definition O_RDONLY : Z := 0.
Definition O_WRONLY : Z := 1.
Definition O_RDWR : Z := 2.
Definition O_ACCMODE : Z := 3.
Definition O_TRUNC : Z := 0x200.

(** [fuse.Attr]; [Uid] and [Gid] are the embedded [fuse.Owner]. *)
Record Attr := {
  Ino : Z;
  Size : Z;
  Blocks : Z;
  Atime : Z;
  Mtime : Z;
  Ctime : Z;
  Atimensec : Z;
  Mtimensec : Z;
  Ctimensec : Z;
  Mode : Z;
  Nlink : Z;
  Uid : Z;
  Gid : Z;
  Rdev : Z;
  Blksize : Z;
  Padding : Z
}.

(** Assignments to the fields the handlers write. *)
Definition set_Mode (a : Attr) (v : Z) : Attr :=
  {| Ino := Ino a; Size := Size a; Blocks := Blocks a; Atime := Atime a;
     Mtime := Mtime a; Ctime := Ctime a; Atimensec := Atimensec a;
     Mtimensec := Mtimensec a; Ctimensec := Ctimensec a; Mode := v;
     Nlink := Nlink a; Uid := Uid a; Gid := Gid a; Rdev := Rdev a;
     Blksize := Blksize a; Padding := Padding a |}.

Definition set_Size (a : Attr) (v : Z) : Attr :=
  {| Ino := Ino a; Size := v; Blocks := Blocks a; Atime := Atime a;
     Mtime := Mtime a; Ctime := Ctime a; Atimensec := Atimensec a;
     Mtimensec := Mtimensec a; Ctimensec := Ctimensec a; Mode := Mode a;
     Nlink := Nlink a; Uid := Uid a; Gid := Gid a; Rdev := Rdev a;
     Blksize := Blksize a; Padding := Padding a |}.

Definition set_Nlink (a : Attr) (v : Z) : Attr :=
  {| Ino := Ino a; Size := Size a; Blocks := Blocks a; Atime := Atime a;
     Mtime := Mtime a; Ctime := Ctime a; Atimensec := Atimensec a;
     Mtimensec := Mtimensec a; Ctimensec := Ctimensec a; Mode := Mode a;
     Nlink := v; Uid := Uid a; Gid := Gid a; Rdev := Rdev a;
     Blksize := Blksize a; Padding := Padding a |}.

(** [func (a *Attr) IsDir() bool] and [IsRegular]. *)
Definition IsDir (a : Attr) : bool := Z.land (Mode a) S_IFMT =? S_IFDIR.
Definition IsRegular (a : Attr) : bool := Z.land (Mode a) S_IFMT =? S_IFREG.

(** [fuse.DirEntry]: [Mode uint32; Name string]. *)
Record DirEntry := { EntryMode : Z; Name : string }.

Definition set_Name (e : DirEntry) (n : string) : DirEntry :=
  {| EntryMode := EntryMode e; Name := n |}.

(** *** Constants of [nametransform] and of [rfs.go] *)

(** Modelled from the spec: [nametransform.DirIVFilename], the fixed
    well-known name of the directory-IV file, is declared outside this
    file; the comments of [GetAttr] and [OpenDir] give its value. *)
Definition DirIVFilename : string := "gocryptfs.diriv".

(** Modelled from the spec: [nametransform.DirIVLen], the fixed 16-byte
    length of a directory IV, is declared outside this file. *)
Definition DirIVLen : Z := 16.

(** [DirIVMode = syscall.S_IFREG | 0400]; octal 0400 is 0x100. *)
Definition DirIVMode : Z := Z.lor S_IFREG 0x100.

(** *** The receiver and what it reaches

    [reverseFS] gathers what a handler reaches through its receiver
    [rfs]: the loopback filesystem, the content encryption helper, the
    system calls, and the methods [isFiltered], [decryptPath],
    [encryptPath], [abs] and the constructor [NewFile], which other files
    of the package define.  A Go pair [(string, error)] is a pair whose
    second component is [None] for [nil]. *)
Record reverseFS := {
  Context : Type;
  error : Type;
  File : Type;
  NodeFile : Type;
  (** [fuse.ToStatus] on an error that is not [nil] *)
  errStatus : error -> Status;
  loopbackfs_GetAttr : string -> Context -> option Attr * Status;
  loopbackfs_OpenDir : string -> Context -> option (list DirEntry) * Status;
  syscall_Access : string -> Z -> option error;
  os_OpenFile : string -> Z -> Z -> option File * option error;
  isFiltered : string -> bool;
  decryptPath : string -> string * option error;
  encryptPath : string -> string * option error;
  abs : string * option error -> string * option error;
  NewFile : option File -> option NodeFile * Status;
  (** [rfs.contentEnc.PlainSizeToCipherSize] *)
  PlainSizeToCipherSize : Z -> Z
}.

(** [fuse.ToStatus]: [nil] is [OK]. *)
Definition ToStatus (rfs : reverseFS) (err : option (error rfs)) : Status :=
  match err with
  | None => OK
  | Some e => errStatus rfs e
  end.

(** A method call through a [nil] pointer panics. *)
Inductive outcome (A : Type) : Type :=
| Returns (a : A)
| Panics.
Arguments Panics {A}.

(** The virtual entry [OpenDir] appends. *)
Definition dirIVEntry : DirEntry :=
  {| EntryMode := Z.lor S_IFREG 0x100; Name := DirIVFilename |}.

(** *** The handlers

    The [fmt.Printf] debug lines of [GetAttr] are left out. *)

Definition GetAttr (rfs : reverseFS) (relPath : string)
    (context : Context rfs) : outcome (option Attr * Status) :=
  (* Handle gocryptfs.diriv *)
  if String.eqb relPath DirIVFilename || HasSuffix relPath DirIVFilename
  then
    let cDir := Dir relPath in
    let cDir := if String.eqb cDir "." then "" else cDir in
    match decryptPath rfs cDir with
    | (_, Some err) => Returns (None, ToStatus rfs (Some err))
    | (dir, None) =>
        (* Does the parent dir exist? *)
        let '(a, status) := loopbackfs_GetAttr rfs dir context in
        if negb (Ok status) then Returns (None, status)
        else
          match a with
          | None => Panics
          | Some a =>
              (* Is it a dir at all? *)
              if negb (IsDir a) then Returns (None, ENOTDIR)
              (* Does the user have execute permissions? *)
              else if Z.land (Mode a) S_IXUSR =? 0 then Returns (None, EPERM)
              else
                (* All good. Let's fake the file. *)
                let a := set_Mode a DirIVMode in
                let a := set_Size a DirIVLen in
                let a := set_Nlink a 1 in
                Returns (Some a, OK)
          end
    end
  else if isFiltered rfs relPath then Returns (None, EPERM)
  else
    match decryptPath rfs relPath with
    | (_, Some err) => Returns (None, ToStatus rfs (Some err))
    | (relPath, None) =>
        let '(a, status) := loopbackfs_GetAttr rfs relPath context in
        if negb (Ok status) then Returns (None, status)
        else
          match a with
          | None => Panics
          | Some a =>
              (* Calculate encrypted file size *)
              let a :=
                if IsRegular a
                then set_Size a (PlainSizeToCipherSize rfs (Size a))
                else a in
              Returns (Some a, OK)
          end
    end.

Definition Access (rfs : reverseFS) (relPath : string) (mode : Z)
    (context : Context rfs) : Status :=
  if isFiltered rfs relPath then EPERM
  else
    match abs rfs (encryptPath rfs relPath) with
    | (_, Some err) => ToStatus rfs (Some err)
    | (cPath, None) => ToStatus rfs (syscall_Access rfs cPath mode)
    end.

(** [int(flags)] keeps the value of a [uint32]; the permission argument
    is octal 0666. *)
Definition Open (rfs : reverseFS) (relPath : string) (flags : Z)
    (context : Context rfs) : option (NodeFile rfs) * Status :=
  if isFiltered rfs relPath then (None, EPERM)
  else
    match abs rfs (decryptPath rfs relPath) with
    | (_, Some err) => (None, ToStatus rfs (Some err))
    | (absPath, None) =>
        match os_OpenFile rfs absPath flags 0x1b6 with
        | (_, Some err) => (None, ToStatus rfs (Some err))
        | (f, None) => NewFile rfs f
        end
    end.

(** The loop of [OpenDir] that encrypts the names in place; it stops at
    the first name [encryptPath] rejects. *)
Fixpoint encryptNames (rfs : reverseFS) (entries : list DirEntry)
    : list DirEntry + error rfs :=
  match entries with
  | [] => inl []
  | e :: rest =>
      match encryptPath rfs (Name e) with
      | (_, Some err) => inr err
      | (n, None) =>
          match encryptNames rfs rest with
          | inl rest' => inl (set_Name e n :: rest')
          | inr err => inr err
          end
      end
  end.

Definition OpenDir (rfs : reverseFS) (relPath : string)
    (context : Context rfs) : option (list DirEntry) * Status :=
  match decryptPath rfs relPath with
  | (_, Some err) => (None, ToStatus rfs (Some err))
  | (relPath, None) =>
      (* Read plaintext dir *)
      let '(entries, status) := loopbackfs_OpenDir rfs relPath context in
      match entries with
      | None => (None, status)
      | Some entries =>
          (* Encrypt names *)
          match encryptNames rfs entries with
          | inr err => (None, ToStatus rfs (Some err))
          | inl entries =>
              (* Add virtual gocryptfs.diriv *)
              (Some (entries ++ [dirIVEntry])%list, OK)
          end
      end
  end.

(** The number of entries of a listing that carry the name [n]. *)
Definition count_name (n : string) (l : list DirEntry) : nat :=
  List.length (filter (fun e => String.eqb (Name e) n) l).

(** The number of entries of a listing equal to [e]. *)
Definition DirEntry_eqb (e1 e2 : DirEntry) : bool :=
  (EntryMode e1 =? EntryMode e2) && String.eqb (Name e1) (Name e2).

Definition count_entry (e : DirEntry) (l : list DirEntry) : nat :=
  List.length (filter (DirEntry_eqb e) l).

(** The test at the head of [GetAttr]: the path is taken for the virtual
    directory-IV file. *)
Definition isDirIVPath (relPath : string) : bool :=
  String.eqb relPath DirIVFilename || HasSuffix relPath DirIVFilename.

(** The parent directory [GetAttr] computes for a directory-IV path:
    [path.Dir], with ["."] replaced by the empty path. *)
Definition dirIVParent (relPath : string) : string :=
  let cDir := Dir relPath in
  if String.eqb cDir "." then "" else cDir.


End ReverseFS.

(** ** Sample hosts

    Small concrete hosts on which the handlers run: a plaintext tree
    under [/plain], an errno as error, and a toy name codec. *)

Module Demo.

Import GoLib ReverseFS.

Fixpoint assoc {A : Type} (k : string) (l : list (string * A)) : option A :=
  match l with
  | [] => None
  | (k', v) :: l' => if String.eqb k k' then Some v else assoc k l'
  end.

(** Modelled from the spec: [contentenc.PlainSizeToCipherSize] is
    declared outside [rfs.go]; the spec gives
    [headerSize + ceil(n / blockSize) * (blockSize + overheadPerBlock)]. *)
Definition specPlainToCipherSize (headerSize blockSize overhead n : Z) : Z :=
  headerSize + ((n + blockSize - 1) / blockSize) * (blockSize + overhead).

(** A toy name codec: lower-case letters are shifted by one place, digits
    and [/ . _ -] are kept, any other byte is rejected. *)
Definition shift_char (d : nat) (c : ascii) : option ascii :=
  let n := nat_of_ascii c in
  if ((97 <=? n) && (n <=? 122))%nat
  then Some (ascii_of_nat (97 + Nat.modulo (n - 97 + d) 26))
  else if ((48 <=? n) && (n <=? 57))%nat || (n =? 47)%nat || (n =? 46)%nat
          || (n =? 95)%nat || (n =? 45)%nat
  then Some c
  else None.

Fixpoint shift_string (d : nat) (s : string) : option string :=
  match s with
  | EmptyString => Some EmptyString
  | String c s' =>
      match shift_char d c, shift_string d s' with
      | Some c', Some t => Some (String c' t)
      | _, _ => None
      end
  end.

Definition toy_codec (d : nat) (p : string) : string * option Status :=
  match shift_string d p with
  | Some q => (q, None)
  | None => ("", Some EINVAL)
  end.

Definition toy_encrypt : string -> string * option Status := toy_codec 1.
Definition toy_decrypt : string -> string * option Status := toy_codec 25.

(** Plaintext names: the name codec is bypassed. *)
Definition plain_names (p : string) : string * option Status := (p, None).

(** [filepath.Join("/plain", relPath)] for a clean relative path, behind
    the error check of [abs]. *)
Definition demo_abs (r : string * option Status) : string * option Status :=
  match r with
  | (_, Some e) => ("", Some e)
  | (p, None) => (if String.eqb p "" then "/plain" else "/plain/" ++ p, None)
  end.

Definition rel_of_abs (p : string) : option string :=
  if String.eqb p "/plain" then Some ""
  else if prefix "/plain/" p
       then Some (substring 7 (String.length p - 7) p) else None.

Definition attr (ino mode size nlink : Z) : Attr :=
  {| Ino := ino; Size := size; Blocks := 8; Atime := 1472500000;
     Mtime := 1472400000; Ctime := 1472400000; Atimensec := 0;
     Mtimensec := 0; Ctimensec := 0; Mode := mode; Nlink := nlink;
     Uid := 1000; Gid := 1000; Rdev := 0; Blksize := 4096; Padding := 0 |}.

(** A host over a plaintext tree: [tree] maps a relative plaintext path
    to its attributes, [dirs] a directory to its entries.  An open file
    is the path and the flags it was opened with. *)
Definition host (enc dec : string -> string * option Status)
    (filtered : string -> bool) (tree : list (string * Attr))
    (dirs : list (string * list DirEntry)) : reverseFS :=
  {| Context := unit;
     error := Status;
     File := string * Z;
     NodeFile := string * Z;
     errStatus := fun e => e;
     loopbackfs_GetAttr := fun p _ =>
       match assoc p tree with
       | Some a => (Some a, OK)
       | None => (None, ENOENT)
       end;
     loopbackfs_OpenDir := fun p _ =>
       match assoc p dirs with
       | Some l => (Some l, OK)
       | None => (None, ENOENT)
       end;
     syscall_Access := fun p mode =>
       match rel_of_abs p with
       | Some r =>
           match assoc r tree with
           | Some a =>
               if Z.land (Z.shiftr (Mode a) 6) mode =? mode
               then None else Some EACCES
           | None => Some ENOENT
           end
       | None => Some ENOENT
       end;
     os_OpenFile := fun p flags _ =>
       match rel_of_abs p with
       | Some r =>
           match assoc r tree with
           | Some _ => (Some (p, flags), None)
           | None => (None, Some ENOENT)
           end
       | None => (None, Some ENOENT)
       end;
     isFiltered := filtered;
     decryptPath := dec;
     encryptPath := enc;
     abs := demo_abs;
     NewFile := fun f =>
       match f with
       | Some f => (Some f, OK)
       | None => (None, EINVAL)
       end;
     PlainSizeToCipherSize := specPlainToCipherSize 18 4096 32 |}.

Definition dir_mode (perm : Z) : Z := Z.lor S_IFDIR perm.
Definition reg_mode (perm : Z) : Z := Z.lor S_IFREG perm.

(** The plaintext tree: permissions are written in hexadecimal, 0x1ed is
    octal 0755, 0x1a4 is 0644, 0x180 is 0600, 0x100 is 0400. *)
Definition tree : list (string * Attr) :=
  [ ("", attr 2 (dir_mode 0x1ed) 4096 4);
    ("notes.txt", attr 11 (reg_mode 0x1a4) 10000 1);
    ("gocryptfs.conf", attr 12 (reg_mode 0x180) 377 1);
    ("docs", attr 13 (dir_mode 0x1ed) 4096 2);
    ("docs/README", attr 14 (reg_mode 0x1a4) 120 1);
    ("locked", attr 15 (dir_mode 0x180) 4096 2);
    ("mygocryptfs.diriv", attr 17 (reg_mode 0x1a4) 555 1) ].

(** The same tree with a real file named like the directory IV. *)
Definition tree_with_real_diriv : list (string * Attr) :=
  ("gocryptfs.diriv", attr 18 (reg_mode 0x100) 16 1) :: tree.

Definition entry (mode : Z) (name : string) : DirEntry :=
  {| EntryMode := mode; Name := name |}.

Definition dirs : list (string * list DirEntry) :=
  [ ("", [ entry (reg_mode 0x1a4) "notes.txt";
           entry (reg_mode 0x180) "gocryptfs.conf";
           entry (dir_mode 0x1ed) "docs";
           entry (dir_mode 0x180) "locked";
           entry (reg_mode 0x1a4) "mygocryptfs.diriv" ]);
    ("docs", [ entry (reg_mode 0x1a4) "README" ]);
    ("locked", []) ].

(** A root that also holds a real file named like the directory IV. *)
Definition dirs_with_real_diriv : list (string * list DirEntry) :=
  [ ("", [ entry (reg_mode 0x1a4) "notes.txt";
           entry (reg_mode 0x100) "gocryptfs.diriv" ]) ].

(** The exclusion policy hides the config file at the tree root; the
    handlers see the path as the mount presents it. *)
Definition hide_conf_encrypted (relPath : string) : bool :=
  String.eqb relPath "hpdszqugt.dpog".

Definition hide_conf_plain (relPath : string) : bool :=
  String.eqb relPath "gocryptfs.conf".

(** Encrypted names. *)
Definition crypt_host : reverseFS :=
  host toy_encrypt toy_decrypt hide_conf_encrypted tree dirs.

(** Plaintext names. *)
Definition plain_host : reverseFS :=
  host plain_names plain_names hide_conf_plain tree dirs.

Definition plain_host_real_diriv : reverseFS :=
  host plain_names plain_names hide_conf_plain tree_with_real_diriv
    dirs_with_real_diriv.

End Demo.

(** ** The command line front end ([package main]) *)

Module Main.

Definition PROGRAM_NAME : string := "gocryptfs".

(** Exit codes *)
Definition ERREXIT_USAGE : Z := 1.
Definition ERREXIT_MOUNT : Z := 3.
Definition ERREXIT_CIPHERDIR : Z := 6.
Definition ERREXIT_INIT : Z := 7.
Definition ERREXIT_LOADCONF : Z := 8.
Definition ERREXIT_PASSWORD : Z := 9.
Definition ERREXIT_MOUNTPOINT : Z := 10.

(** The line feed of ["...\n"] and of [fmt.Println]. *)
Definition nl : string := String (ascii_of_nat 10) EmptyString.

(** A Go [error], seen through its one method. *)
Record error := { Error : string }.

Definition bytes := list Byte.byte.

Section Programs.

(** The value of a [*cryptfs.ConfFile]; the type is declared in
    [cryptfs]. *)
Variable ConfFile : Type.

(** What [loadConfig] and [changePassword] call: the operating system,
    the terminal, the loggers of [cryptfs], and the functions
    [readPassword], [readPasswordTwice], [cryptfs.LoadConfFile],
    [ConfFile.EncryptKey] and [ConfFile.WriteFile] declared in other
    files.  The index is the type of the answer.  [fmt_Print] carries the
    text as formatted; [EncryptKey] answers with the config file as the
    call leaves it. *)
Inductive Call : Type -> Type :=
| os_Stat (name : string) : Call (option error)
| fmt_Print (text : string) : Call unit
| Info_Printf (text : string) : Call unit
| Warn_Disable : Call unit
| Warn_Enable : Call unit
| readPassword : Call string
| readPasswordTwice : Call string
| LoadConfFile (filename password : string)
    : Call (bytes * ConfFile * option error)
| EncryptKey (confFile : ConfFile) (key : bytes) (password : string)
    : Call ConfFile
| WriteFile (confFile : ConfFile) : Call (option error)
| os_Exit (code : Z) : Call Empty_set.

(** A program is a tree of calls. *)
Inductive Prog (A : Type) : Type :=
| Ret (a : A)
| Do (X : Type) (c : Call X) (k : X -> Prog A).
Arguments Do {A X} c k.

Fixpoint bind {A B : Type} (p : Prog A) (f : A -> Prog B) : Prog B :=
  match p with
  | Ret a => f a
  | Do c k => Do c (fun x => bind (k x) f)
  end.

Definition call {X : Type} (c : Call X) : Prog X := Do c (@Ret X).

(** [os.Exit] does not return. *)
Definition exit {A : Type} (code : Z) : Prog A :=
  Do (os_Exit code) (fun v : Empty_set => match v with end).

Notation "x <- p ;; q" := (bind p (fun x => q))
  (at level 61, p at next level, right associativity).
Notation "p ;;; q" := (bind p (fun _ => q))
  (at level 61, right associativity).

(** loadConfig - load the config file "filename", prompting the user for
    the password *)
Definition loadConfig (filename : string) : Prog (bytes * ConfFile) :=
  (* Check if the file exists at all before prompting for a password *)
  err <- call (os_Stat filename) ;;
  match err with
  | Some err =>
      call (fmt_Print (Error err)) ;;;
      exit ERREXIT_LOADCONF
  | None =>
      call (fmt_Print "Password: ") ;;;
      pw <- call readPassword ;;
      call (Info_Printf "Decrypting master key... ") ;;;
      call Warn_Disable ;;;
      r <- call (LoadConfFile filename pw) ;;
      let '(masterkey, confFile, err) := r in
      call Warn_Enable ;;;
      match err with
      | Some err =>
          call (fmt_Print (Error err ++ nl)) ;;;
          call (fmt_Print ("Wrong password." ++ nl)) ;;;
          exit ERREXIT_LOADCONF
      | None =>
          call (Info_Printf ("done." ++ nl)) ;;;
          Ret (masterkey, confFile)
      end
  end.

(** changePassword - change the password of config file "filename" *)
Definition changePassword (filename : string) : Prog unit :=
  r <- loadConfig filename ;;
  let '(masterkey, confFile) := r in
  call (fmt_Print ("Please enter your new password." ++ nl)) ;;;
  newPw <- call readPasswordTwice ;;
  confFile <- call (EncryptKey confFile masterkey newPw) ;;
  err <- call (WriteFile confFile) ;;
  match err with
  | Some err =>
      call (fmt_Print (Error err ++ nl)) ;;;
      exit ERREXIT_INIT
  | None =>
      call (Info_Printf ("Password changed." ++ nl)) ;;;
      exit 0
  end.

(** *** Runs

    A run is the list of the calls made, each with its answer, and the
    way the program ended. *)
Inductive Obs : Type :=
| Stat_ (name : string) (err : option error)
| Print_ (text : string)
| Info_ (text : string)
| WarnDisable_
| WarnEnable_
| readPassword_ (password : string)
| readPasswordTwice_ (password : string)
| LoadConfFile_ (filename password : string) (masterkey : bytes)
    (confFile : ConfFile) (err : option error)
| EncryptKey_ (confFile : ConfFile) (key : bytes) (password : string)
    (confFile' : ConfFile)
| WriteFile_ (confFile : ConfFile) (err : option error)
| Exit_ (code : Z).

Definition obs {X : Type} (c : Call X) : X -> Obs :=
  match c in Call X return X -> Obs with
  | os_Stat name => fun err => Stat_ name err
  | fmt_Print text => fun _ => Print_ text
  | Info_Printf text => fun _ => Info_ text
  | Warn_Disable => fun _ => WarnDisable_
  | Warn_Enable => fun _ => WarnEnable_
  | readPassword => fun pw => readPassword_ pw
  | readPasswordTwice => fun pw => readPasswordTwice_ pw
  | LoadConfFile filename pw =>
      fun r => LoadConfFile_ filename pw (fst (fst r)) (snd (fst r)) (snd r)
  | EncryptKey cf key pw => fun cf' => EncryptKey_ cf key pw cf'
  | WriteFile cf => fun err => WriteFile_ cf err
  | os_Exit _ => fun v => match v with end
  end.

(** [Exited]: the program called [os.Exit].  [Stuck]: a function it
    called did not return (it left the process itself). *)
Inductive Outcome (A : Type) : Type :=
| Returned (a : A)
| Exited (code : Z)
| Stuck.
Arguments Exited {A} code.
Arguments Stuck {A}.

(** How a call that gives no answer ends the run. *)
Definition halted {A X : Type} (c : Call X) : list Obs * Outcome A :=
  match c with
  | os_Exit code => ([Exit_ code], Exited code)
  | _ => ([], Stuck)
  end.

Fixpoint runs {A : Type} (p : Prog A) (tr : list Obs) (out : Outcome A)
    : Prop :=
  match p with
  | Ret a => tr = [] /\ out = Returned a
  | Do c k =>
      (exists x tr', tr = obs c x :: tr' /\ runs (k x) tr' out)
      \/ (tr, out) = halted c
  end.

(** An oracle answers the calls; [exec] runs a program against it. *)
Definition Oracle : Type := forall X : Type, Call X -> option X.

Fixpoint exec {A : Type} (o : Oracle) (p : Prog A)
    : list Obs * Outcome A :=
  match p with
  | Ret a => ([], Returned a)
  | Do c k =>
      match o _ c with
      | Some x => let '(tr, out) := exec o (k x) in (obs c x :: tr, out)
      | None => halted c
      end
  end.

(** The oracle lets the program reach [EncryptKey]: the file is there,
    the terminal and the loggers answer, [LoadConfFile] succeeds. *)
Definition answers_load (o : Oracle) (filename oldPw : string)
    (key : bytes) (confFile : ConfFile) (newPw : string)
    (confFile' : ConfFile) : Prop :=
  o _ (os_Stat filename) = Some None
  /\ (forall text, o _ (fmt_Print text) = Some tt)
  /\ (forall text, o _ (Info_Printf text) = Some tt)
  /\ o _ Warn_Disable = Some tt
  /\ o _ Warn_Enable = Some tt
  /\ o _ readPassword = Some oldPw
  /\ o _ (LoadConfFile filename oldPw) = Some (key, confFile, None)
  /\ o _ readPasswordTwice = Some newPw
  /\ o _ (EncryptKey confFile key newPw) = Some confFile'.


End Programs.

Arguments Ret {ConfFile A} a.
Arguments Do {ConfFile A X} c k.
Arguments os_Stat {ConfFile} name.
Arguments fmt_Print {ConfFile} text.
Arguments Info_Printf {ConfFile} text.
Arguments Warn_Disable {ConfFile}.
Arguments Warn_Enable {ConfFile}.
Arguments readPassword {ConfFile}.
Arguments readPasswordTwice {ConfFile}.
Arguments os_Exit {ConfFile} code.
Arguments LoadConfFile {ConfFile} filename password.
Arguments EncryptKey {ConfFile} confFile key password.
Arguments WriteFile {ConfFile} confFile.
Arguments Stat_ {ConfFile} name err.
Arguments Print_ {ConfFile} text.
Arguments Info_ {ConfFile} text.
Arguments WarnDisable_ {ConfFile}.
Arguments WarnEnable_ {ConfFile}.
Arguments readPassword_ {ConfFile} password.
Arguments readPasswordTwice_ {ConfFile} password.
Arguments Exit_ {ConfFile} code.
Arguments Returned {A} a.
Arguments Exited {A} code.
Arguments Stuck {A}.
Arguments loadConfig {ConfFile} filename.
Arguments changePassword {ConfFile} filename.
Arguments answers_load {ConfFile} o filename oldPw key confFile newPw
  confFile'.

(** *** A sample terminal session

    A toy [cryptfs]: a config file stores the master key next to the
    password that unwraps it; [None] is the [nil] pointer. *)
Definition ToyConf : Type := option (string * bytes).

Definition toy_LoadConfFile (disk : list (string * ToyConf))
    (filename password : string) : bytes * ToyConf * option error :=
  match Demo.assoc filename disk with
  | Some (Some (pw, key)) =>
      if String.eqb pw password then (key, Some (pw, key), None)
      else ([], None,
            Some {| Error := "cipher: message authentication failed" |})
  | Some None =>
      ([], None, Some {| Error := "unexpected end of JSON input" |})
  | None =>
      ([], None,
       Some {| Error := "open " ++ filename
                         ++ ": no such file or directory" |})
  end.

(** The user types [oldPw] at the prompt and [newPw] twice; writing the
    config file succeeds. *)
Definition session (disk : list (string * ToyConf)) (oldPw newPw : string)
    : Oracle ToyConf :=
  fun X c =>
    match c in Call _ X return option X with
    | os_Stat name =>
        match Demo.assoc name disk with
        | Some _ => Some None
        | None =>
            Some (Some {| Error := "stat " ++ name
                                    ++ ": no such file or directory" |})
        end
    | fmt_Print _ => Some tt
    | Info_Printf _ => Some tt
    | Warn_Disable => Some tt
    | Warn_Enable => Some tt
    | readPassword => Some oldPw
    | readPasswordTwice => Some newPw
    | LoadConfFile filename password =>
        Some (toy_LoadConfFile disk filename password)
    | EncryptKey _ key password => Some (Some (password, key))
    | WriteFile _ => Some None
    | os_Exit _ => None
    end.

Definition key0 : bytes := [Byte.x13; Byte.x37; Byte.xc0; Byte.xde].

Definition disk0 : list (string * ToyConf) :=
  [ ("/c/gocryptfs.conf", Some ("old-password", key0));
    ("/c/broken.conf", None) ].

End Main.

(** ** Paths and receivers used to state further properties of [rfs.go] *)

Module ReverseFSExt.

Import GoLib ReverseFS.

(** The same receiver under another exclusion policy. *)
Definition with_isFiltered (rfs : reverseFS) (f : string -> bool)
    : reverseFS :=
  {| Context := Context rfs;
     error := error rfs;
     File := File rfs;
     NodeFile := NodeFile rfs;
     errStatus := errStatus rfs;
     loopbackfs_GetAttr := loopbackfs_GetAttr rfs;
     loopbackfs_OpenDir := loopbackfs_OpenDir rfs;
     syscall_Access := syscall_Access rfs;
     os_OpenFile := os_OpenFile rfs;
     isFiltered := f;
     decryptPath := decryptPath rfs;
     encryptPath := encryptPath rfs;
     abs := abs rfs;
     NewFile := NewFile rfs;
     PlainSizeToCipherSize := PlainSizeToCipherSize rfs |}.

(** The path [GetAttr] hands to [decryptPath]: the parent directory for
    a directory-IV path, the path itself otherwise. *)
Definition lookupPath (relPath : string) : string :=
  if isDirIVPath relPath then dirIVParent relPath else relPath.

(** The elements of a path, split at the slashes. *)
Fixpoint components (l : list ascii) : list (list ascii) :=
  match l with
  | [] => [[]]
  | c :: l' =>
      if is_slash c then [] :: components l'
      else match components l' with
           | cur :: rest => (c :: cur) :: rest
           | [] => [[c]]
           end
  end.

(** The rest of a relative path: each element with the slash before it. *)
Fixpoint joinsep (cs : list (list ascii)) : list ascii :=
  match cs with
  | [] => []
  | c :: cs' => ("/"%char :: c ++ joinsep cs')%list
  end.

Definition list_ascii_eqb (a b : list ascii) : bool :=
  String.eqb (string_of_list_ascii a) (string_of_list_ascii b).

(** A path element that [path.Clean] copies: not empty, not [.], not
    [..]. *)
Definition is_plain (c : list ascii) : bool :=
  negb (list_ascii_eqb c [])
  && negb (list_ascii_eqb c ["."%char])
  && negb (list_ascii_eqb c ["."%char; "."%char]).

(** A clean relative path: plain elements separated by single slashes,
    as the kernel hands them to a FUSE filesystem. *)
Definition is_clean_rel (p : string) : bool :=
  forallb is_plain (components (list_ascii_of_string p)).

Definition no_slash (name : string) : bool :=
  negb (existsb is_slash (list_ascii_of_string name)).

(** The path of the entry [name] of the directory [dir]; the root is the
    empty path. *)
Definition childPath (dir name : string) : string :=
  if String.eqb dir "" then name else dir ++ "/" ++ name.

(** A host whose exclusion policy hides every path. *)
Definition hide_all_host : reverseFS :=
  Demo.host Demo.toy_encrypt Demo.toy_decrypt (fun _ => true) Demo.tree
    Demo.dirs.

End ReverseFSExt.

(** ** The state of the [Warn] logger along a run *)

Module MainExt.

Import Main.

(** Whether [cryptfs.Warn] is enabled after the calls of [tr], when it
    was [enabled] before. *)
Fixpoint warn_state (ConfFile : Type) (tr : list (Obs ConfFile))
    (enabled : bool) : bool :=
  match tr with
  | [] => enabled
  | WarnDisable_ :: tr' => warn_state tr' false
  | WarnEnable_ :: tr' => warn_state tr' true
  | _ :: tr' => warn_state tr' enabled
  end.

(** Whether every call of [LoadConfFile] in [tr] is made with the logger
    disabled. *)
Fixpoint warn_off_at_load (ConfFile : Type) (tr : list (Obs ConfFile))
    (enabled : bool) : bool :=
  match tr with
  | [] => true
  | LoadConfFile_ _ _ _ _ _ :: tr' =>
      negb enabled && warn_off_at_load tr' enabled
  | WarnDisable_ :: tr' => warn_off_at_load tr' false
  | WarnEnable_ :: tr' => warn_off_at_load tr' true
  | _ :: tr' => warn_off_at_load tr' enabled
  end.

End MainExt.

(** ** The rest of [package main]: [initDir], [printVersion],
    [usageText], [pathfsFrontend] and [main] *)

Module Cli.

Import Main.

(** The double quote character. *)
Definition dq : string := String (ascii_of_nat 34) EmptyString.

(** [%d] *)
Definition itoa (n : Z) : string :=
  DecimalString.NilZero.string_of_int (Z.to_int n).

Record argContainer := {
  debug : bool;
  init : bool;
  zerokey : bool;
  fusedebug : bool;
  openssl : bool;
  passwd : bool;
  foreground : bool;
  version : bool;
  plaintextnames : bool;
  quiet : bool;
  masterkey : string;
  mountpoint : string;
  cipherdir : string;
  cpuprofile : string;
  config : string;
  notifypid : Z
}.

(** Assignments to the fields [main] writes. *)
Definition set_cipherdir (a : argContainer) (v : string) : argContainer :=
  {| debug := debug a; init := init a; zerokey := zerokey a;
     fusedebug := fusedebug a; openssl := openssl a; passwd := passwd a;
     foreground := foreground a; version := version a;
     plaintextnames := plaintextnames a; quiet := quiet a;
     masterkey := masterkey a; mountpoint := mountpoint a;
     cipherdir := v; cpuprofile := cpuprofile a; config := config a;
     notifypid := notifypid a |}.

Definition set_config (a : argContainer) (v : string) : argContainer :=
  {| debug := debug a; init := init a; zerokey := zerokey a;
     fusedebug := fusedebug a; openssl := openssl a; passwd := passwd a;
     foreground := foreground a; version := version a;
     plaintextnames := plaintextnames a; quiet := quiet a;
     masterkey := masterkey a; mountpoint := mountpoint a;
     cipherdir := cipherdir a; cpuprofile := cpuprofile a; config := v;
     notifypid := notifypid a |}.

Definition set_mountpoint (a : argContainer) (v : string) : argContainer :=
  {| debug := debug a; init := init a; zerokey := zerokey a;
     fusedebug := fusedebug a; openssl := openssl a; passwd := passwd a;
     foreground := foreground a; version := version a;
     plaintextnames := plaintextnames a; quiet := quiet a;
     masterkey := masterkey a; mountpoint := v;
     cipherdir := cipherdir a; cpuprofile := cpuprofile a;
     config := config a; notifypid := notifypid a |}.

Definition set_plaintextnames (a : argContainer) (v : bool)
    : argContainer :=
  {| debug := debug a; init := init a; zerokey := zerokey a;
     fusedebug := fusedebug a; openssl := openssl a; passwd := passwd a;
     foreground := foreground a; version := version a;
     plaintextnames := v; quiet := quiet a;
     masterkey := masterkey a; mountpoint := mountpoint a;
     cipherdir := cipherdir a; cpuprofile := cpuprofile a;
     config := config a; notifypid := notifypid a |}.

(** The fields of [fuse.MountOptions] that [pathfsFrontend] sets; the
    others keep their zero value. *)
Record MountOptions := {
  AllowOther : bool;
  Options : list string;
  Name : string
}.

(** [nodefs.Options], durations in nanoseconds. *)
Record NodefsOptions := {
  NegativeTimeout : Z;
  AttrTimeout : Z;
  EntryTimeout : Z
}.

Definition time_Second : Z := 1000000000.

(** [filepath.Join] of two elements: leading empty elements are skipped,
    the rest is joined with slashes and cleaned. *)
Definition filepath_Join (a b : string) : string :=
  if negb (String.eqb a "") then GoLib.Clean (a ++ "/" ++ b)
  else if negb (String.eqb b "") then GoLib.Clean b
  else "".

(** [flagSet.Arg(i)]: the empty string when there is no such argument. *)
Definition Arg (positional : list string) (i : nat) : string :=
  nth i positional "".

Section Driver.

(** Types of [cryptfs], [os], [pathfs_frontend] and [go-fuse]. *)
Variables ConfFile OsFile FileSystem PathNodeFs Node Connector
  RawFileSystem Server : Type.

(** [pathFs.Root()] and [conn.RawFS()] *)
Variable Root : PathNodeFs -> Node.
Variable RawFS : Connector -> RawFileSystem.

(** [cryptfs.KEY_LEN], [cryptfs.ConfDefaultName] and
    [cryptfs.HEADER_CURRENT_VERSION] are declared in [cryptfs];
    [GitVersion] is set by the build script. *)
Variable KEY_LEN : nat.
Variable ConfDefaultName : string.
Variable HEADER_CURRENT_VERSION : Z.
Variable GitVersion : string.

(** What the functions below call: the calls of [loadConfig] and
    [changePassword] ([Base]), and the functions of [package main],
    [cryptfs], [flag], [filepath], [os], [pprof], [pathfs_frontend] and
    [go-fuse] they reach.  [pprof_StartCPUProfile] returns an error that
    [main] drops. *)
Inductive Sys : Type -> Type :=
| Base (X : Type) (c : Call ConfFile X) : Sys X
| checkDir (dir : string) : Sys (option error)
| checkDirEmpty (dir : string) : Sys (option error)
| CreateConfFile (filename password : string) (plaintextNames : bool)
    : Sys (option error)
| flagSet_PrintDefaults : Sys unit
| Debug_Enable : Sys unit
| Debug_Printf (text : string) : Sys unit
| Info_Disable : Sys unit
| forkChild : Sys unit
| filepath_Abs (path : string) : Sys (string * option error)
| os_Create (name : string) : Sys (OsFile * option error)
| pprof_StartCPUProfile (f : OsFile) : Sys (option error)
| pprof_StopCPUProfile : Sys unit
| parseMasterKey (s : string) : Sys bytes
| printMasterKey (key : bytes) : Sys unit
| PlaintextNames (confFile : ConfFile) : Sys bool
| NewFS (key : bytes) (cipherdir : string) (openssl plaintextNames : bool)
    : Sys FileSystem
| NewPathNodeFs (fs : FileSystem) (clientInodes : bool) : Sys PathNodeFs
| NewFileSystemConnector (root : Node) (opts : NodefsOptions)
    : Sys Connector
| fuse_NewServer (fs : RawFileSystem) (mountpoint : string)
    (opts : MountOptions) : Sys (Server * option error)
| SetDebug (srv : Server) (debug : bool) : Sys unit
| sendUsr1 (pid : Z) : Sys unit
| handleSigint (srv : Server) (mountpoint : string) : Sys unit
| Serve (srv : Server) : Sys unit.

Inductive Prog (A : Type) : Type :=
| Ret (a : A)
| Do (X : Type) (c : Sys X) (k : X -> Prog A).
Arguments Ret {A} a.
Arguments Do {A X} c k.

Fixpoint bind {A B : Type} (p : Prog A) (f : A -> Prog B) : Prog B :=
  match p with
  | Ret a => f a
  | Do c k => Do c (fun x => bind (k x) f)
  end.

Definition call {X : Type} (c : Sys X) : Prog X := Do c (@Ret X).

(** A program of [loadConfig]'s kind, run as part of this one. *)
Fixpoint lift {A : Type} (p : Main.Prog ConfFile A) : Prog A :=
  match p with
  | Main.Ret a => Ret a
  | Main.Do c k => Do (Base c) (fun x => lift (k x))
  end.

Definition exit {A : Type} (code : Z) : Prog A :=
  lift (Main.exit ConfFile code).

(** [fmt.Printf], [fmt.Println] and [fmt.Print], with the text as
    formatted; [cryptfs.Info.Printf] and [cryptfs.Info.Println]
    likewise. *)
Definition print (text : string) : Prog unit := call (Base (fmt_Print text)).
Definition info (text : string) : Prog unit :=
  call (Base (Info_Printf text)).

Notation "x <- p ;; q" := (bind p (fun x => q))
  (at level 61, p at next level, right associativity).
Notation "p ;;; q" := (bind p (fun _ => q))
  (at level 61, right associativity).

Definition initDir (args : argContainer) : Prog unit :=
  err <- call (checkDirEmpty (cipherdir args)) ;;
  match err with
  | Some err =>
      print ("Invalid CIPHERDIR: " ++ Error err ++ nl) ;;;
      exit ERREXIT_INIT
  | None =>
      info ("Choose a password for protecting your files." ++ nl) ;;;
      password <- call (Base readPasswordTwice) ;;
      err <- call (CreateConfFile (config args) password
                     (plaintextnames args)) ;;
      match err with
      | Some err =>
          print (Error err ++ nl) ;;;
          exit ERREXIT_INIT
      | None =>
          info ("The filesystem is now ready for mounting." ++ nl) ;;;
          exit 0
      end
  end.

(** printVersion - print a version string like
    "gocryptfs v0.3.1-31-g6736212-dirty; on-disk format 2" *)
Definition printVersion : Prog unit :=
  print (PROGRAM_NAME ++ " " ++ GitVersion ++ "; on-disk format "
         ++ itoa HEADER_CURRENT_VERSION ++ nl).

Definition usageText : Prog unit :=
  printVersion ;;;
  print nl ;;;
  print ("Usage: " ++ PROGRAM_NAME ++ " -init|-passwd [OPTIONS] CIPHERDIR"
         ++ nl) ;;;
  print ("  or   " ++ PROGRAM_NAME ++ " [OPTIONS] CIPHERDIR MOUNTPOINT"
         ++ nl) ;;;
  print (nl ++ "Options:" ++ nl) ;;;
  call flagSet_PrintDefaults.

(** pathfsFrontend - initialize FUSE server based on go-fuse's PathFS.
    Calls os.Exit on errors *)
Definition pathfsFrontend (key : bytes) (cipherdir mountpoint : string)
    (debug openssl plaintextNames : bool) : Prog Server :=
  finalFs <- call (NewFS key cipherdir openssl plaintextNames) ;;
  pathFs <- call (NewPathNodeFs finalFs true) ;;
  let fuseOpts :=
    {| NegativeTimeout := time_Second; AttrTimeout := time_Second;
       EntryTimeout := time_Second |} in
  conn <- call (NewFileSystemConnector (Root pathFs) fuseOpts) ;;
  let mOpts :=
    {| AllowOther := false;
       Options := ["fsname=" ++ cipherdir];
       Name := "gocryptfs" |} in
  r <- call (fuse_NewServer (RawFS conn) mountpoint mOpts) ;;
  let '(srv, err) := r in
  match err with
  | Some err =>
      print ("Mount failed: " ++ Error err) ;;;
      exit ERREXIT_MOUNT
  | None =>
      call (SetDebug srv debug) ;;;
      Ret srv
  end.

(** [main], from the return of [flagSet.Parse]: [args] holds the flags
    as parsed and [positional] the arguments left over.  The call of
    [runtime.GOMAXPROCS] is left out.  The deferred
    [pprof.StopCPUProfile] runs when [main] returns. *)
Definition main (args : argContainer) (positional : list string)
    : Prog unit :=
  (if debug args then
     call Debug_Enable ;;;
     call (Debug_Printf ("Debug output enabled" ++ nl))
   else Ret tt) ;;;
  (* By default, let the child handle everything. *)
  (if negb (foreground args) then call forkChild else Ret tt) ;;;
  (* "-v" *)
  (if version args then printVersion ;;; exit 0 else Ret tt) ;;;
  (* Every operation below requires CIPHERDIR. Check that we have it. *)
  args <- (if (1 <=? List.length positional)%nat then
             r <- call (filepath_Abs (Arg positional 0)) ;;
             let args := set_cipherdir args (fst r) in
             err <- call (checkDir (cipherdir args)) ;;
             match err with
             | Some err =>
                 print ("Invalid CIPHERDIR: " ++ Error err ++ nl) ;;;
                 exit ERREXIT_CIPHERDIR
             | None => Ret args
             end
           else
             usageText ;;;
             exit ERREXIT_USAGE) ;;
  (* "-q" *)
  (if quiet args then call Info_Disable else Ret tt) ;;;
  (* "-config" *)
  args <- (if negb (String.eqb (config args) "") then
             r <- call (filepath_Abs (config args)) ;;
             let args := set_config args (fst r) in
             match snd r with
             | Some err =>
                 print ("Invalid " ++ dq ++ "-config" ++ dq ++ " setting: "
                        ++ Error err ++ nl)
             | None => Ret tt
             end ;;;
             info ("Using config file at custom location " ++ config args
                   ++ nl) ;;;
             Ret args
           else
             Ret (set_config args
                    (filepath_Join (cipherdir args) ConfDefaultName))) ;;
  (* "-cpuprofile" *)
  profiling <- (if negb (String.eqb (cpuprofile args) "") then
                  r <- call (os_Create (cpuprofile args)) ;;
                  let '(f, err) := r in
                  match err with
                  | Some err =>
                      print (Error err ++ nl) ;;;
                      exit ERREXIT_INIT
                  | None =>
                      info ("Writing CPU profile to " ++ cpuprofile args
                            ++ nl) ;;;
                      call (pprof_StartCPUProfile f) ;;;
                      Ret true
                  end
                else Ret false) ;;
  (* "-openssl" *)
  (if Bool.eqb (openssl args) false
   then info ("Openssl disabled" ++ nl) else Ret tt) ;;;
  (* "-init" *)
  (if init args then
     (if (1 <? List.length positional)%nat then
        print ("Usage: " ++ PROGRAM_NAME ++ " -init [OPTIONS] CIPHERDIR"
               ++ nl) ;;;
        exit ERREXIT_USAGE
      else Ret tt) ;;;
     initDir args
   else Ret tt) ;;;
  (* "-passwd" *)
  (if passwd args then
     (if (1 <? List.length positional)%nat then
        print ("Usage: " ++ PROGRAM_NAME ++ " -passwd [OPTIONS] CIPHERDIR"
               ++ nl) ;;;
        exit ERREXIT_USAGE
      else Ret tt) ;;;
     lift (changePassword (config args))
   else Ret tt) ;;;
  (* Mount: check mountpoint *)
  (if (List.length positional <? 2)%nat then
     usageText ;;;
     exit ERREXIT_USAGE
   else Ret tt) ;;;
  r <- call (filepath_Abs (Arg positional 1)) ;;
  let args := set_mountpoint args (fst r) in
  match snd r with
  | Some err =>
      print ("Invalid MOUNTPOINT: " ++ Error err ++ nl) ;;;
      exit ERREXIT_MOUNTPOINT
  | None => Ret tt
  end ;;;
  err <- call (checkDirEmpty (mountpoint args)) ;;
  match err with
  | Some err =>
      print ("Invalid MOUNTPOINT: " ++ Error err ++ nl) ;;;
      exit ERREXIT_MOUNTPOINT
  | None => Ret tt
  end ;;;
  (* Get master key *)
  km <- (if negb (String.eqb (masterkey args) "") then
           (* "-masterkey" *)
           info ("Using explicit master key." ++ nl) ;;;
           key <- call (parseMasterKey (masterkey args)) ;;
           info ("THE MASTER KEY IS VISIBLE VIA " ++ dq ++ "ps -auxwww" ++ dq
                 ++ ", ONLY USE THIS MODE FOR EMERGENCIES." ++ nl) ;;;
           Ret (key, args)
         else if zerokey args then
           (* "-zerokey" *)
           info ("Using all-zero dummy master key." ++ nl) ;;;
           info ("ZEROKEY MODE PROVIDES NO SECURITY AT ALL AND SHOULD ONLY "
                 ++ "BE USED FOR TESTING." ++ nl) ;;;
           Ret (repeat Byte.x00 KEY_LEN, args)
         else
           (* Load master key from config file *)
           r <- lift (loadConfig (config args)) ;;
           let '(key, confFile) := r in
           call (printMasterKey key) ;;;
           b <- call (PlaintextNames confFile) ;;
           Ret (key, set_plaintextnames args b)) ;;
  let '(key, args) := km in
  (* Initialize FUSE server *)
  srv <- pathfsFrontend key (cipherdir args) (mountpoint args)
           (fusedebug args) (openssl args) (plaintextnames args) ;;
  info ("Filesystem ready." ++ nl) ;;;
  (* We are ready - send USR1 signal to our parent *)
  (if 0 <? notifypid args then call (sendUsr1 (notifypid args))
   else Ret tt) ;;;
  (* Wait for SIGINT in the background and unmount ourselves if we get
     it. *)
  call (handleSigint srv (mountpoint args)) ;;;
  (* Jump into server loop. *)
  call (Serve srv) ;;;
  (if profiling then call pprof_StopCPUProfile else Ret tt).

(** *** Runs *)

Inductive Obs : Type :=
| Base_ (o : Main.Obs ConfFile)
| checkDir_ (dir : string) (err : option error)
| checkDirEmpty_ (dir : string) (err : option error)
| CreateConfFile_ (filename password : string) (plaintextNames : bool)
    (err : option error)
| PrintDefaults_
| DebugEnable_
| DebugPrintf_ (text : string)
| InfoDisable_
| forkChild_
| Abs_ (path abspath : string) (err : option error)
| Create_ (name : string) (f : OsFile) (err : option error)
| StartCPUProfile_ (f : OsFile) (err : option error)
| StopCPUProfile_
| parseMasterKey_ (s : string) (key : bytes)
| printMasterKey_ (key : bytes)
| PlaintextNames_ (confFile : ConfFile) (answer : bool)
| NewFS_ (key : bytes) (cipherdir : string) (openssl plaintextNames : bool)
    (fs : FileSystem)
| NewPathNodeFs_ (fs : FileSystem) (clientInodes : bool)
    (pathFs : PathNodeFs)
| NewFileSystemConnector_ (root : Node) (opts : NodefsOptions)
    (conn : Connector)
| NewServer_ (fs : RawFileSystem) (mountpoint : string)
    (opts : MountOptions) (srv : Server) (err : option error)
| SetDebug_ (srv : Server) (debug : bool)
| sendUsr1_ (pid : Z)
| handleSigint_ (srv : Server) (mountpoint : string)
| Serve_ (srv : Server).

Definition obs {X : Type} (c : Sys X) : X -> Obs :=
  match c in Sys X return X -> Obs with
  | Base c => fun x => Base_ (Main.obs c x)
  | checkDir dir => fun err => checkDir_ dir err
  | checkDirEmpty dir => fun err => checkDirEmpty_ dir err
  | CreateConfFile f pw pn => fun err => CreateConfFile_ f pw pn err
  | flagSet_PrintDefaults => fun _ => PrintDefaults_
  | Debug_Enable => fun _ => DebugEnable_
  | Debug_Printf text => fun _ => DebugPrintf_ text
  | Info_Disable => fun _ => InfoDisable_
  | forkChild => fun _ => forkChild_
  | filepath_Abs path => fun r => Abs_ path (fst r) (snd r)
  | os_Create name => fun r => Create_ name (fst r) (snd r)
  | pprof_StartCPUProfile f => fun err => StartCPUProfile_ f err
  | pprof_StopCPUProfile => fun _ => StopCPUProfile_
  | parseMasterKey s => fun key => parseMasterKey_ s key
  | printMasterKey key => fun _ => printMasterKey_ key
  | PlaintextNames cf => fun b => PlaintextNames_ cf b
  | NewFS key cdir ossl pn => fun fs => NewFS_ key cdir ossl pn fs
  | NewPathNodeFs fs ci => fun pfs => NewPathNodeFs_ fs ci pfs
  | NewFileSystemConnector root opts =>
      fun conn => NewFileSystemConnector_ root opts conn
  | fuse_NewServer fs mp opts =>
      fun r => NewServer_ fs mp opts (fst r) (snd r)
  | SetDebug srv d => fun _ => SetDebug_ srv d
  | sendUsr1 pid => fun _ => sendUsr1_ pid
  | handleSigint srv mp => fun _ => handleSigint_ srv mp
  | Serve srv => fun _ => Serve_ srv
  end.

(** How a call that gives no answer ends the run: [os.Exit] exits, any
    other call leaves the program stuck. *)
Definition halted {A X : Type} (c : Sys X) : list Obs * Outcome A :=
  match c with
  | Base c =>
      match c with
      | os_Exit code => ([Base_ (Exit_ code)], Exited code)
      | _ => ([], Stuck)
      end
  | _ => ([], Stuck)
  end.

Fixpoint runs {A : Type} (p : Prog A) (tr : list Obs) (out : Outcome A)
    : Prop :=
  match p with
  | Ret a => tr = [] /\ out = Returned a
  | Do c k =>
      (exists x tr', tr = obs c x :: tr' /\ runs (k x) tr' out)
      \/ (tr, out) = halted c
  end.

Definition Oracle : Type := forall X : Type, Sys X -> option X.

Fixpoint exec {A : Type} (o : Oracle) (p : Prog A)
    : list Obs * Outcome A :=
  match p with
  | Ret a => ([], Returned a)
  | Do c k =>
      match o _ c with
      | Some x => let '(tr, out) := exec o (k x) in (obs c x :: tr, out)
      | None => halted c
      end
  end.

(** Kinds of calls. *)
Definition is_mount (o : Obs) : bool :=
  match o with
  | NewFS_ _ _ _ _ _ | NewPathNodeFs_ _ _ _
  | NewFileSystemConnector_ _ _ _ | NewServer_ _ _ _ _ _ | SetDebug_ _ _
  | sendUsr1_ _ | handleSigint_ _ _ | Serve_ _ => true
  | _ => false
  end.

(** Reads a password from the terminal. *)
Definition is_prompt (o : Obs) : bool :=
  match o with
  | Base_ (readPassword_ _) | Base_ (readPasswordTwice_ _) => true
  | _ => false
  end.

(** Looks at or reads the config file. *)
Definition is_conf_read (o : Obs) : bool :=
  match o with
  | Base_ (Stat_ _ _) | Base_ (LoadConfFile_ _ _ _ _ _) => true
  | _ => false
  end.

(** Creates a config file. *)
Definition is_create (o : Obs) : bool :=
  match o with
  | CreateConfFile_ _ _ _ _ => true
  | _ => false
  end.

(** Wraps a master key anew or writes a config file back. *)
Definition is_rewrap (o : Obs) : bool :=
  match o with
  | Base_ (EncryptKey_ _ _ _ _) | Base_ (WriteFile_ _ _) => true
  | _ => false
  end.

(** Hands a master key to the filesystem. *)
Definition is_NewFS (o : Obs) : bool :=
  match o with
  | NewFS_ _ _ _ _ _ => true
  | _ => false
  end.

(** The debug logger. *)
Definition is_debug_log (o : Obs) : bool :=
  match o with
  | DebugEnable_ | DebugPrintf_ _ => true
  | _ => false
  end.

(** [always P p]: every call of every run of [p] satisfies [P]. *)
Definition always (P : Obs -> bool) (A : Type) (p : Prog A) : Prop :=
  forall tr out, runs p tr out -> forallb P tr = true.

(** [p] has no run that returns. *)
Definition no_return (A : Type) (p : Prog A) : Prop :=
  forall tr a, ~ runs p tr (Returned a).

(** [post Q p]: whatever [p] returns satisfies [Q]. *)
Definition post (A : Type) (Q : A -> Prop) (p : Prog A) : Prop :=
  forall tr a, runs p tr (Returned a) -> Q a.

(** The flags that select what [main] does are those of [args]. *)
Definition same_flags (args a : argContainer) : Prop :=
  init a = init args /\ passwd a = passwd args
  /\ masterkey a = masterkey args /\ zerokey a = zerokey args
  /\ plaintextnames a = plaintextnames args
  /\ fusedebug a = fusedebug args /\ openssl a = openssl args.

End Driver.

Arguments Base
  {ConfFile OsFile FileSystem PathNodeFs Node Connector RawFileSystem Server}
  {X} c.
Arguments checkDir
  {ConfFile OsFile FileSystem PathNodeFs Node Connector RawFileSystem Server}
  dir.
Arguments checkDirEmpty
  {ConfFile OsFile FileSystem PathNodeFs Node Connector RawFileSystem Server}
  dir.
Arguments CreateConfFile
  {ConfFile OsFile FileSystem PathNodeFs Node Connector RawFileSystem Server}
  filename password plaintextNames.
Arguments flagSet_PrintDefaults
  {ConfFile OsFile FileSystem PathNodeFs Node Connector RawFileSystem Server}
  .
Arguments Debug_Enable
  {ConfFile OsFile FileSystem PathNodeFs Node Connector RawFileSystem Server}
  .
Arguments Debug_Printf
  {ConfFile OsFile FileSystem PathNodeFs Node Connector RawFileSystem Server}
  text.
Arguments Info_Disable
  {ConfFile OsFile FileSystem PathNodeFs Node Connector RawFileSystem Server}
  .
Arguments forkChild
  {ConfFile OsFile FileSystem PathNodeFs Node Connector RawFileSystem Server}
  .
Arguments filepath_Abs
  {ConfFile OsFile FileSystem PathNodeFs Node Connector RawFileSystem Server}
  path.
Arguments os_Create
  {ConfFile OsFile FileSystem PathNodeFs Node Connector RawFileSystem Server}
  name.
Arguments pprof_StartCPUProfile
  {ConfFile OsFile FileSystem PathNodeFs Node Connector RawFileSystem Server}
  f.
Arguments pprof_StopCPUProfile
  {ConfFile OsFile FileSystem PathNodeFs Node Connector RawFileSystem Server}
  .
Arguments parseMasterKey
  {ConfFile OsFile FileSystem PathNodeFs Node Connector RawFileSystem Server}
  s.
Arguments printMasterKey
  {ConfFile OsFile FileSystem PathNodeFs Node Connector RawFileSystem Server}
  key.
Arguments PlaintextNames
  {ConfFile OsFile FileSystem PathNodeFs Node Connector RawFileSystem Server}
  confFile.
Arguments NewFS
  {ConfFile OsFile FileSystem PathNodeFs Node Connector RawFileSystem Server}
  key cipherdir openssl plaintextNames.
Arguments NewPathNodeFs
  {ConfFile OsFile FileSystem PathNodeFs Node Connector RawFileSystem Server}
  fs clientInodes.
Arguments NewFileSystemConnector
  {ConfFile OsFile FileSystem PathNodeFs Node Connector RawFileSystem Server}
  root opts.
Arguments fuse_NewServer
  {ConfFile OsFile FileSystem PathNodeFs Node Connector RawFileSystem Server}
  fs mountpoint opts.
Arguments SetDebug
  {ConfFile OsFile FileSystem PathNodeFs Node Connector RawFileSystem Server}
  srv debug.
Arguments sendUsr1
  {ConfFile OsFile FileSystem PathNodeFs Node Connector RawFileSystem Server}
  pid.
Arguments handleSigint
  {ConfFile OsFile FileSystem PathNodeFs Node Connector RawFileSystem Server}
  srv mountpoint.
Arguments Serve
  {ConfFile OsFile FileSystem PathNodeFs Node Connector RawFileSystem Server}
  srv.
Arguments Base_
  {ConfFile OsFile FileSystem PathNodeFs Node Connector RawFileSystem Server}
  o.
Arguments checkDir_
  {ConfFile OsFile FileSystem PathNodeFs Node Connector RawFileSystem Server}
  dir err.
Arguments checkDirEmpty_
  {ConfFile OsFile FileSystem PathNodeFs Node Connector RawFileSystem Server}
  dir err.
Arguments CreateConfFile_
  {ConfFile OsFile FileSystem PathNodeFs Node Connector RawFileSystem Server}
  filename password plaintextNames err.
Arguments PrintDefaults_
  {ConfFile OsFile FileSystem PathNodeFs Node Connector RawFileSystem Server}
  .
Arguments DebugEnable_
  {ConfFile OsFile FileSystem PathNodeFs Node Connector RawFileSystem Server}
  .
Arguments DebugPrintf_
  {ConfFile OsFile FileSystem PathNodeFs Node Connector RawFileSystem Server}
  text.
Arguments InfoDisable_
  {ConfFile OsFile FileSystem PathNodeFs Node Connector RawFileSystem Server}
  .
Arguments forkChild_
  {ConfFile OsFile FileSystem PathNodeFs Node Connector RawFileSystem Server}
  .
Arguments Abs_
  {ConfFile OsFile FileSystem PathNodeFs Node Connector RawFileSystem Server}
  path abspath err.
Arguments Create_
  {ConfFile OsFile FileSystem PathNodeFs Node Connector RawFileSystem Server}
  name f err.
Arguments StartCPUProfile_
  {ConfFile OsFile FileSystem PathNodeFs Node Connector RawFileSystem Server}
  f err.
Arguments StopCPUProfile_
  {ConfFile OsFile FileSystem PathNodeFs Node Connector RawFileSystem Server}
  .
Arguments parseMasterKey_
  {ConfFile OsFile FileSystem PathNodeFs Node Connector RawFileSystem Server}
  s key.
Arguments printMasterKey_
  {ConfFile OsFile FileSystem PathNodeFs Node Connector RawFileSystem Server}
  key.
Arguments PlaintextNames_
  {ConfFile OsFile FileSystem PathNodeFs Node Connector RawFileSystem Server}
  confFile answer.
Arguments NewFS_
  {ConfFile OsFile FileSystem PathNodeFs Node Connector RawFileSystem Server}
  key cipherdir openssl plaintextNames fs.
Arguments NewPathNodeFs_
  {ConfFile OsFile FileSystem PathNodeFs Node Connector RawFileSystem Server}
  fs clientInodes pathFs.
Arguments NewFileSystemConnector_
  {ConfFile OsFile FileSystem PathNodeFs Node Connector RawFileSystem Server}
  root opts conn.
Arguments NewServer_
  {ConfFile OsFile FileSystem PathNodeFs Node Connector RawFileSystem Server}
  fs mountpoint opts srv err.
Arguments SetDebug_
  {ConfFile OsFile FileSystem PathNodeFs Node Connector RawFileSystem Server}
  srv debug.
Arguments sendUsr1_
  {ConfFile OsFile FileSystem PathNodeFs Node Connector RawFileSystem Server}
  pid.
Arguments handleSigint_
  {ConfFile OsFile FileSystem PathNodeFs Node Connector RawFileSystem Server}
  srv mountpoint.
Arguments Serve_
  {ConfFile OsFile FileSystem PathNodeFs Node Connector RawFileSystem Server}
  srv.
Arguments Ret
  {ConfFile OsFile FileSystem PathNodeFs Node Connector RawFileSystem Server}
  {A} a.
Arguments lift
  {ConfFile OsFile FileSystem PathNodeFs Node Connector RawFileSystem Server}
  {A} p.
Arguments exit
  {ConfFile OsFile FileSystem PathNodeFs Node Connector RawFileSystem Server}
  {A} code.
Arguments print
  {ConfFile OsFile FileSystem PathNodeFs Node Connector RawFileSystem Server}
  text.
Arguments info
  {ConfFile OsFile FileSystem PathNodeFs Node Connector RawFileSystem Server}
  text.
Arguments initDir
  {ConfFile OsFile FileSystem PathNodeFs Node Connector RawFileSystem Server}
  args.
Arguments pathfsFrontend
  {ConfFile OsFile FileSystem PathNodeFs Node Connector RawFileSystem Server}
  Root RawFS key cipherdir mountpoint debug openssl plaintextNames.
Arguments main
  {ConfFile OsFile FileSystem PathNodeFs Node Connector RawFileSystem Server}
  Root RawFS KEY_LEN ConfDefaultName HEADER_CURRENT_VERSION GitVersion args
  positional.
Arguments printVersion
  {ConfFile OsFile FileSystem PathNodeFs Node Connector RawFileSystem Server}
  HEADER_CURRENT_VERSION GitVersion.
Arguments usageText
  {ConfFile OsFile FileSystem PathNodeFs Node Connector RawFileSystem Server}
  HEADER_CURRENT_VERSION GitVersion.
Arguments is_mount
  {ConfFile OsFile FileSystem PathNodeFs Node Connector RawFileSystem Server}
  o.
Arguments is_prompt
  {ConfFile OsFile FileSystem PathNodeFs Node Connector RawFileSystem Server}
  o.
Arguments is_conf_read
  {ConfFile OsFile FileSystem PathNodeFs Node Connector RawFileSystem Server}
  o.
Arguments is_create
  {ConfFile OsFile FileSystem PathNodeFs Node Connector RawFileSystem Server}
  o.
Arguments is_rewrap
  {ConfFile OsFile FileSystem PathNodeFs Node Connector RawFileSystem Server}
  o.
Arguments is_NewFS
  {ConfFile OsFile FileSystem PathNodeFs Node Connector RawFileSystem Server}
  o.
Arguments is_debug_log
  {ConfFile OsFile FileSystem PathNodeFs Node Connector RawFileSystem Server}
  o.

(** *** A sample command line session

    The filesystem, its nodes and its connector are the master key they
    were made from, a server is its mount point, an open file its name.
    [forkChild] does not return; every other call succeeds, and the
    terminal and the config files are those of [Main.session]. *)
Definition sample_oracle (disk : list (string * ToyConf))
    (oldPw newPw : string)
    : Oracle ToyConf string bytes bytes bytes bytes bytes string :=
  fun X c =>
    match c in Sys _ _ _ _ _ _ _ _ X return option X with
    | Base c => session disk oldPw newPw c
    | checkDir _ => Some None
    | checkDirEmpty _ => Some None
    | CreateConfFile _ _ _ => Some None
    | flagSet_PrintDefaults => Some tt
    | Debug_Enable => Some tt
    | Debug_Printf _ => Some tt
    | Info_Disable => Some tt
    | forkChild => None
    | filepath_Abs path => Some ("/abs/" ++ path, None)
    | os_Create name => Some (name, None)
    | pprof_StartCPUProfile _ => Some None
    | pprof_StopCPUProfile => Some tt
    | parseMasterKey _ => Some key0
    | printMasterKey _ => Some tt
    | PlaintextNames _ => Some true
    | NewFS key _ _ _ => Some key
    | NewPathNodeFs fs _ => Some fs
    | NewFileSystemConnector root _ => Some root
    | fuse_NewServer _ mountpoint _ => Some (mountpoint, None)
    | SetDebug _ _ => Some tt
    | sendUsr1 _ => Some tt
    | handleSigint _ _ => Some tt
    | Serve _ => Some tt
    end.

Definition sample_main (args : argContainer) (positional : list string)
    : Prog ToyConf string bytes bytes bytes bytes bytes string unit :=
  main (fun pathFs : bytes => pathFs) (fun conn : bytes => conn) 32
    "gocryptfs.conf" 2 "v0.4" args positional.

(** [gocryptfs -f] with the default of every other flag. *)
Definition args_f : argContainer :=
  {| debug := false; init := false; zerokey := false; fusedebug := false;
     openssl := true; passwd := false; foreground := true;
     version := false; plaintextnames := false; quiet := false;
     masterkey := ""; mountpoint := ""; cipherdir := ""; cpuprofile := "";
     config := ""; notifypid := 0 |}.

Definition with_init (a : argContainer) : argContainer :=
  {| debug := debug a; init := true; zerokey := zerokey a;
     fusedebug := fusedebug a; openssl := openssl a; passwd := passwd a;
     foreground := foreground a; version := version a;
     plaintextnames := plaintextnames a; quiet := quiet a;
     masterkey := masterkey a; mountpoint := mountpoint a;
     cipherdir := cipherdir a; cpuprofile := cpuprofile a;
     config := config a; notifypid := notifypid a |}.

Definition with_passwd (a : argContainer) : argContainer :=
  {| debug := debug a; init := init a; zerokey := zerokey a;
     fusedebug := fusedebug a; openssl := openssl a; passwd := true;
     foreground := foreground a; version := version a;
     plaintextnames := plaintextnames a; quiet := quiet a;
     masterkey := masterkey a; mountpoint := mountpoint a;
     cipherdir := cipherdir a; cpuprofile := cpuprofile a;
     config := config a; notifypid := notifypid a |}.

Definition with_zerokey (a : argContainer) : argContainer :=
  {| debug := debug a; init := init a; zerokey := true;
     fusedebug := fusedebug a; openssl := openssl a; passwd := passwd a;
     foreground := foreground a; version := version a;
     plaintextnames := plaintextnames a; quiet := quiet a;
     masterkey := masterkey a; mountpoint := mountpoint a;
     cipherdir := cipherdir a; cpuprofile := cpuprofile a;
     config := config a; notifypid := notifypid a |}.

Definition with_version (a : argContainer) : argContainer :=
  {| debug := true; init := init a; zerokey := zerokey a;
     fusedebug := fusedebug a; openssl := openssl a; passwd := passwd a;
     foreground := foreground a; version := true;
     plaintextnames := plaintextnames a; quiet := quiet a;
     masterkey := masterkey a; mountpoint := mountpoint a;
     cipherdir := cipherdir a; cpuprofile := cpuprofile a;
     config := config a; notifypid := notifypid a |}.

Definition with_background (a : argContainer) : argContainer :=
  {| debug := true; init := init a; zerokey := zerokey a;
     fusedebug := fusedebug a; openssl := openssl a; passwd := passwd a;
     foreground := false; version := version a;
     plaintextnames := plaintextnames a; quiet := quiet a;
     masterkey := masterkey a; mountpoint := mountpoint a;
     cipherdir := cipherdir a; cpuprofile := cpuprofile a;
     config := config a; notifypid := notifypid a |}.

(** The config file of [disk0] as [main] names it for the cipher
    directory [c]. *)
Definition disk1 : list (string * ToyConf) :=
  [ ("/abs/c/gocryptfs.conf", Some ("old-password", key0)) ].

End Cli.

(** * Properties *)

(** ** The Go library functions on sample inputs *)

Example Clean_table :
  map GoLib.Clean
    [""; "abc"; "abc/def"; "a/b/c"; "."; ".."; "../.."; "../../abc";
     "/abc"; "/"; "abc/"; "abc/def/"; "./"; "../"; "/abc/";
     "abc//def//ghi"; "//abc"; "//abc//"; "abc/./def"; "/./abc/def";
     "abc/."; "abc/def/ghi/../jkl"; "abc/def/../ghi/../jkl"; "abc/def/..";
     "abc/def/../.."; "/abc/def/../.."; "abc/def/../../..";
     "/abc/def/../../.."; "abc/def/../../../ghi/jkl/../../../mno";
     "abc/./../def"; "abc//./../def"; "abc/../../././../def"]
  = ["."; "abc"; "abc/def"; "a/b/c"; "."; ".."; "../.."; "../../abc";
     "/abc"; "/"; "abc"; "abc/def"; "."; ".."; "/abc";
     "abc/def/ghi"; "/abc"; "/abc"; "abc/def"; "/abc/def";
     "abc"; "abc/def/jkl"; "abc/jkl"; "abc";
     "."; "/"; "..";
     "/"; "../../mno";
     "def"; "def"; "../../def"].
Proof. reflexivity. Qed.

Example Dir_table :
  map GoLib.Dir
    [""; "abc"; "abc/def"; "a/b/.x"; "a/b/c."; "a/b/c.x"; "/"; "/a";
     "gocryptfs.diriv"; "d1/gocryptfs.diriv"; "d1/d2/xgocryptfs.diriv"]
  = ["."; "."; "abc"; "a/b"; "a/b"; "a/b"; "/"; "/";
     "."; "d1"; "d1/d2"].
Proof. reflexivity. Qed.

Example HasSuffix_table :
  map (fun s => GoLib.HasSuffix s "gocryptfs.diriv")
    ["gocryptfs.diriv"; "d/gocryptfs.diriv"; "xgocryptfs.diriv"; "diriv";
     ""; "gocryptfs.diriv.bak"]
  = [true; true; true; false; false; false].
Proof. reflexivity. Qed.

(** ** The handlers of [rfs.go] *)

Section ReverseFS_facts.

Import GoLib ReverseFS.

Variable rfs : reverseFS.

Lemma Ok_OK : Ok OK = true.
Proof. reflexivity. Qed.

Lemma eqb_HasSuffix (s : string) : HasSuffix s s = true.
Proof.
  unfold HasSuffix.
  rewrite Nat.leb_refl, Nat.sub_diag. simpl.
  assert (H : forall t, substring 0 (String.length t) t = t).
  { induction t as [|c t IH]; simpl; [reflexivity | now rewrite IH]. }
  rewrite H. apply String.eqb_refl.
Qed.

(** The first disjunct of the test is covered by the second. *)
Lemma isDirIVPath_HasSuffix (relPath : string) :
  isDirIVPath relPath = HasSuffix relPath DirIVFilename.
Proof.
  unfold isDirIVPath.
  destruct (String.eqb_spec relPath DirIVFilename) as [->|_].
  - now rewrite eqb_HasSuffix.
  - reflexivity.
Qed.

(** The directory-IV branch of [GetAttr], once the parent decrypts and
    the loopback filesystem answers. *)
Lemma GetAttr_dirIV_branch (relPath : string) (context : Context rfs)
    (dir : string) (a : option Attr) (status : Status) :
  isDirIVPath relPath = true ->
  decryptPath rfs (dirIVParent relPath) = (dir, None) ->
  loopbackfs_GetAttr rfs dir context = (a, status) ->
  GetAttr rfs relPath context =
    if negb (Ok status) then Returns (None, status)
    else match a with
         | None => Panics
         | Some a =>
             if negb (IsDir a) then Returns (None, ENOTDIR)
             else if Z.land (Mode a) S_IXUSR =? 0 then Returns (None, EPERM)
             else Returns
                    (Some (set_Nlink (set_Size (set_Mode a DirIVMode)
                                               DirIVLen) 1), OK)
         end.
Proof.
  unfold isDirIVPath, dirIVParent, GetAttr. intros -> Hd Hl.
  cbv zeta. rewrite Hd, Hl. reflexivity.
Qed.

(** C1: for a path taken for the virtual directory-IV file whose parent
    directory exists, [GetAttr] fails with [ENOTDIR] when the parent is
    not a directory and with [EPERM] when the parent directory lacks owner
    execute permission; otherwise it succeeds with a regular file of
    permission 0400, size 16 and link count 1. *)
Theorem GetAttr_dirIV_synthesized (relPath : string)
    (context : Context rfs) (dir : string) (a : Attr) :
  isDirIVPath relPath = true ->
  decryptPath rfs (dirIVParent relPath) = (dir, None) ->
  loopbackfs_GetAttr rfs dir context = (Some a, OK) ->
  (IsDir a = false -> GetAttr rfs relPath context = Returns (None, ENOTDIR))
  /\ (IsDir a = true -> Z.land (Mode a) S_IXUSR = 0 ->
      GetAttr rfs relPath context = Returns (None, EPERM))
  /\ (IsDir a = true -> Z.land (Mode a) S_IXUSR <> 0 ->
      exists a',
        GetAttr rfs relPath context = Returns (Some a', OK)
        /\ IsRegular a' = true
        /\ Mode a' = Z.lor S_IFREG 0x100
        /\ Z.land (Mode a') 0xfff = 0x100
        /\ Size a' = 16
        /\ Nlink a' = 1).
Proof.
  intros Hv Hd Hl.
  rewrite (GetAttr_dirIV_branch _ _ Hv Hd Hl), Ok_OK. cbn [negb].
  repeat split.
  - intros ->. reflexivity.
  - intros -> ->. reflexivity.
  - intros -> Hx. apply Z.eqb_neq in Hx. rewrite Hx. cbn [negb].
    eexists. repeat split.
Qed.

(** C2: on an ordinary path (not a directory-IV path, not excluded) whose
    underlying [GetAttr] succeeds, the overlay returns the underlying
    attributes; a regular file has its size replaced by
    [PlainSizeToCipherSize] of the real size, every other field is
    forwarded, and the record of an entry that is not a regular file is
    forwarded whole. *)
Theorem GetAttr_ordinary (relPath : string) (context : Context rfs)
    (p : string) (a : Attr) :
  isDirIVPath relPath = false ->
  isFiltered rfs relPath = false ->
  decryptPath rfs relPath = (p, None) ->
  loopbackfs_GetAttr rfs p context = (Some a, OK) ->
  exists a',
    GetAttr rfs relPath context = Returns (Some a', OK)
    /\ (IsRegular a = true ->
        Size a' = PlainSizeToCipherSize rfs (Size a))
    /\ (IsRegular a = false -> a' = a)
    /\ Ino a' = Ino a /\ Blocks a' = Blocks a
    /\ Atime a' = Atime a /\ Mtime a' = Mtime a /\ Ctime a' = Ctime a
    /\ Atimensec a' = Atimensec a /\ Mtimensec a' = Mtimensec a
    /\ Ctimensec a' = Ctimensec a
    /\ Mode a' = Mode a /\ Nlink a' = Nlink a
    /\ Uid a' = Uid a /\ Gid a' = Gid a
    /\ Rdev a' = Rdev a /\ Blksize a' = Blksize a
    /\ Padding a' = Padding a.
Proof.
  unfold isDirIVPath, GetAttr. intros -> -> -> ->.
  rewrite Ok_OK. cbn [negb].
  eexists. split; [reflexivity|].
  destruct (IsRegular a); repeat split; intros; try discriminate;
    reflexivity.
Qed.

(** What the loop of [OpenDir] returns when no name is rejected. *)
Lemma encryptNames_ok (es : list DirEntry) :
  (forall e, In e es -> snd (encryptPath rfs (Name e)) = None) ->
  encryptNames rfs es
  = inl (map (fun e => set_Name e (fst (encryptPath rfs (Name e)))) es).
Proof.
  induction es as [|e es IH]; intros H; simpl.
  - reflexivity.
  - pose proof (H e (or_introl eq_refl)) as He.
    destruct (encryptPath rfs (Name e)) as [n [err|]]; simpl in *.
    + discriminate.
    + rewrite IH; [reflexivity|]. intros e' He'. apply H. now right.
Qed.

(** The loop fails as soon as one name is rejected. *)
Lemma encryptNames_err (es : list DirEntry) :
  (exists e, In e es /\ snd (encryptPath rfs (Name e)) <> None) ->
  exists err, encryptNames rfs es = inr err.
Proof.
  induction es as [|e es IH]; intros (e0 & Hin & Hne); simpl.
  - destruct Hin.
  - destruct (encryptPath rfs (Name e)) as [n [err|]] eqn:E.
    + eauto.
    + destruct Hin as [<-|Hin].
      * rewrite E in Hne. now destruct Hne.
      * destruct IH as (err & ->); eauto.
Qed.

Lemma count_name_app (n : string) (l1 l2 : list DirEntry) :
  count_name n (l1 ++ l2) = (count_name n l1 + count_name n l2)%nat.
Proof.
  unfold count_name. now rewrite filter_app, length_app.
Qed.

Lemma count_name_none (n : string) (l : list DirEntry) :
  (forall e, In e l -> Name e <> n) -> count_name n l = 0%nat.
Proof.
  unfold count_name. induction l as [|e l IH]; intros H; simpl.
  - reflexivity.
  - destruct (String.eqb_spec (Name e) n) as [E|_].
    + exfalso. apply (H e); [now left | exact E].
    + apply IH. intros e' He'. apply H. now right.
Qed.

(** C3, amended: for a directory whose underlying listing succeeds and
    whose entry names are all encrypted without error, the listing is the
    underlying entries in host order, each with its name encrypted and its
    mode kept, followed by the one synthetic directory-IV entry; it is one
    longer than the underlying listing; the directory-IV name occurs once
    more than among the encrypted names, hence exactly once when no real
    entry encrypts to that name. *)
Theorem OpenDir_listing (relPath : string) (context : Context rfs)
    (p : string) (es : list DirEntry) (st : Status) :
  decryptPath rfs relPath = (p, None) ->
  loopbackfs_OpenDir rfs p context = (Some es, st) ->
  (forall e, In e es -> snd (encryptPath rfs (Name e)) = None) ->
  let enc := map (fun e => set_Name e (fst (encryptPath rfs (Name e)))) es in
  OpenDir rfs relPath context = (Some (enc ++ [dirIVEntry])%list, OK)
  /\ List.length (enc ++ [dirIVEntry])%list = S (List.length es)
  /\ map EntryMode enc = map EntryMode es
  /\ count_name DirIVFilename (enc ++ [dirIVEntry])%list
     = S (count_name DirIVFilename enc)
  /\ ((forall e, In e es -> fst (encryptPath rfs (Name e)) <> DirIVFilename)
      -> count_name DirIVFilename (enc ++ [dirIVEntry])%list = 1%nat).
Proof.
  intros Hd Hl Henc enc.
  assert (Hcount : count_name DirIVFilename (enc ++ [dirIVEntry])%list
                   = S (count_name DirIVFilename enc)).
  { rewrite count_name_app. cbn. lia. }
  repeat split.
  - unfold OpenDir. rewrite Hd, Hl, (encryptNames_ok _ Henc). reflexivity.
  - rewrite length_app. unfold enc. rewrite length_map. simpl. lia.
  - unfold enc. rewrite map_map. reflexivity.
  - exact Hcount.
  - intros Hno. rewrite Hcount. f_equal. apply count_name_none.
    intros e He. unfold enc in He. apply in_map_iff in He.
    destruct He as (e0 & <- & He0). simpl. now apply Hno.
Qed.

(** The handlers that check the exclusion policy. *)
Lemma filtered_GetAttr (relPath : string) (context : Context rfs) :
  isDirIVPath relPath = false ->
  isFiltered rfs relPath = true ->
  GetAttr rfs relPath context = Returns (None, EPERM).
Proof. unfold isDirIVPath, GetAttr. now intros -> ->. Qed.

Lemma filtered_Access (relPath : string) (mode : Z)
    (context : Context rfs) :
  isFiltered rfs relPath = true ->
  Access rfs relPath mode context = EPERM.
Proof. unfold Access. now intros ->. Qed.

Lemma filtered_Open (relPath : string) (flags : Z)
    (context : Context rfs) :
  isFiltered rfs relPath = true ->
  Open rfs relPath flags context = (None, EPERM).
Proof. unfold Open. now intros ->. Qed.

(** [OpenDir] never consults the exclusion policy: an excluded directory
    is listed like any other. *)
Lemma OpenDir_ignores_isFiltered (relPath : string)
    (context : Context rfs) (p : string) (es : list DirEntry)
    (st : Status) :
  isFiltered rfs relPath = true ->
  decryptPath rfs relPath = (p, None) ->
  loopbackfs_OpenDir rfs p context = (Some es, st) ->
  (forall e, In e es -> snd (encryptPath rfs (Name e)) = None) ->
  exists l, OpenDir rfs relPath context = (Some l, OK).
Proof.
  intros _ Hd Hl Henc. unfold OpenDir.
  rewrite Hd, Hl, (encryptNames_ok _ Henc). eauto.
Qed.

(** C6, amended: [Open] checks the exclusion policy and nothing else; for
    a path that is not excluded and translates to [absPath], it opens
    [absPath] on the host with the flags of the caller, unchanged, and
    permission 0666, and returns the host's error or the file [NewFile]
    makes of the open file. *)
Theorem Open_forwards_flags (relPath : string) (flags : Z)
    (context : Context rfs) (absPath : string) :
  isFiltered rfs relPath = false ->
  abs rfs (decryptPath rfs relPath) = (absPath, None) ->
  Open rfs relPath flags context =
    match os_OpenFile rfs absPath flags 0x1b6 with
    | (_, Some err) => (None, errStatus rfs err)
    | (f, None) => NewFile rfs f
    end.
Proof. unfold Open. intros -> ->. reflexivity. Qed.


(** C10: the attributes [GetAttr] synthesizes for the directory-IV file
    are the record the loopback filesystem returned for the parent
    directory with [Mode], [Size] and [Nlink] overwritten; every other
    field is the parent's. *)
Theorem GetAttr_dirIV_frame (relPath : string) (context : Context rfs)
    (a' : Attr) (st : Status) :
  isDirIVPath relPath = true ->
  GetAttr rfs relPath context = Returns (Some a', st) ->
  exists dir a,
    decryptPath rfs (dirIVParent relPath) = (dir, None)
    /\ loopbackfs_GetAttr rfs dir context = (Some a, OK)
    /\ a' = set_Nlink (set_Size (set_Mode a DirIVMode) DirIVLen) 1
    /\ Ino a' = Ino a /\ Blocks a' = Blocks a
    /\ Atime a' = Atime a /\ Mtime a' = Mtime a /\ Ctime a' = Ctime a
    /\ Atimensec a' = Atimensec a /\ Mtimensec a' = Mtimensec a
    /\ Ctimensec a' = Ctimensec a
    /\ Uid a' = Uid a /\ Gid a' = Gid a
    /\ Rdev a' = Rdev a /\ Blksize a' = Blksize a
    /\ Padding a' = Padding a.
Proof.
  intros Hv.
  destruct (decryptPath rfs (dirIVParent relPath)) as [dir err] eqn:Hd.
  destruct err as [err|].
  - unfold GetAttr, isDirIVPath, dirIVParent in *. rewrite Hv. cbv zeta.
    rewrite Hd. discriminate.
  - destruct (loopbackfs_GetAttr rfs dir context) as [a status] eqn:Hl.
    rewrite (GetAttr_dirIV_branch _ _ Hv Hd Hl).
    destruct (Ok status) eqn:Hok; cbn [negb]; [|discriminate].
    apply Z.eqb_eq in Hok. subst status.
    destruct a as [a|]; [|discriminate].
    destruct (IsDir a); cbn [negb]; [|discriminate].
    destruct (Z.land (Mode a) S_IXUSR =? 0); [discriminate|].
    intros [= <- _]. exists dir, a. repeat split. exact Hl.
Qed.

End ReverseFS_facts.

(** ** The handlers on the sample hosts *)

Section ReverseFS_samples.

Import GoLib ReverseFS Demo.

Lemma GetAttr_dirIV_synthesized_witness :
  (exists a',
      GetAttr crypt_host "epdt/gocryptfs.diriv" tt = Returns (Some a', OK)
      /\ IsRegular a' = true
      /\ Mode a' = Z.lor S_IFREG 0x100
      /\ Z.land (Mode a') 0xfff = 0x100
      /\ Size a' = 16
      /\ Nlink a' = 1)
  /\ GetAttr crypt_host "opuft.uyu/gocryptfs.diriv" tt
     = Returns (None, ENOTDIR)
  /\ GetAttr crypt_host "mpdlfe/gocryptfs.diriv" tt = Returns (None, EPERM).
Proof.
  split; [|split].
  - destruct (@GetAttr_dirIV_synthesized crypt_host
                "epdt/gocryptfs.diriv" tt "docs"
                (attr 13 (dir_mode 0x1ed) 4096 2)
                eq_refl eq_refl eq_refl) as (_ & _ & H).
    apply H; [reflexivity | discriminate].
  - destruct (@GetAttr_dirIV_synthesized crypt_host
                "opuft.uyu/gocryptfs.diriv" tt "notes.txt"
                (attr 11 (reg_mode 0x1a4) 10000 1)
                eq_refl eq_refl eq_refl) as (H & _).
    apply H. reflexivity.
  - destruct (@GetAttr_dirIV_synthesized crypt_host
                "mpdlfe/gocryptfs.diriv" tt "locked"
                (attr 15 (dir_mode 0x180) 4096 2)
                eq_refl eq_refl eq_refl) as (_ & H & _).
    apply H; reflexivity.
Defined.

Lemma GetAttr_ordinary_witness :
  exists a',
    GetAttr crypt_host "opuft.uyu" tt = Returns (Some a', OK)
    /\ Size a' = 12402
    /\ Mode a' = reg_mode 0x1a4
    /\ Ino a' = 11.
Proof.
  destruct (@GetAttr_ordinary crypt_host "opuft.uyu" tt "notes.txt"
              (attr 11 (reg_mode 0x1a4) 10000 1)
              eq_refl eq_refl eq_refl eq_refl)
    as (a' & H & Hsize & _ & Hino & _ & _ & _ & _ & _ & _ & _ & Hmode & _).
  exists a'. repeat split.
  - exact H.
  - rewrite Hsize; reflexivity.
  - exact Hmode.
  - exact Hino.
Defined.

Lemma OpenDir_listing_witness :
  OpenDir crypt_host "" tt
  = (Some [ entry (reg_mode 0x1a4) "opuft.uyu";
            entry (reg_mode 0x180) "hpdszqugt.dpog";
            entry (dir_mode 0x1ed) "epdt";
            entry (dir_mode 0x180) "mpdlfe";
            entry (reg_mode 0x1a4) "nzhpdszqugt.ejsjw";
            dirIVEntry ], OK).
Proof.
  assert (Henc : forall e,
             In e [ entry (reg_mode 0x1a4) "notes.txt";
                    entry (reg_mode 0x180) "gocryptfs.conf";
                    entry (dir_mode 0x1ed) "docs";
                    entry (dir_mode 0x180) "locked";
                    entry (reg_mode 0x1a4) "mygocryptfs.diriv" ] ->
             snd (encryptPath crypt_host (Name e)) = None).
  { intros e He. simpl in He.
    repeat (destruct He as [<-|He]; [reflexivity|]). destruct He. }
  destruct (@OpenDir_listing crypt_host "" tt "" _ OK eq_refl eq_refl Henc)
    as (H & _).
  exact H.
Defined.

(** C3, as stated, fails twice: a directory with a name the codec rejects
    has an underlying listing but no overlay listing; and under plaintext
    names a real file named like the directory IV is listed next to the
    synthetic entry, so that the name occurs twice. *)
Lemma OpenDir_counterexample :
  (loopbackfs_OpenDir crypt_host "docs" tt
   = (Some [entry (reg_mode 0x1a4) "README"], OK)
   /\ decryptPath crypt_host "epdt" = ("docs", None)
   /\ OpenDir crypt_host "epdt" tt = (None, EINVAL))
  /\ (OpenDir plain_host_real_diriv "" tt
      = (Some [ entry (reg_mode 0x1a4) "notes.txt";
                entry (reg_mode 0x100) "gocryptfs.diriv";
                dirIVEntry ], OK)
      /\ count_name DirIVFilename
           [ entry (reg_mode 0x1a4) "notes.txt";
             entry (reg_mode 0x100) "gocryptfs.diriv";
             dirIVEntry ] = 2%nat
      /\ count_entry dirIVEntry
           [ entry (reg_mode 0x1a4) "notes.txt";
             entry (reg_mode 0x100) "gocryptfs.diriv";
             dirIVEntry ] = 2%nat).
Proof. repeat split. Qed.

(** C4: the config file at the tree root is excluded; [GetAttr],
    [Access] and [Open] answer [EPERM] for it, but [OpenDir] of the root
    lists it, with its real mode, under plaintext and under encrypted
    names. *)
Theorem OpenDir_lists_excluded_entry :
  (isFiltered plain_host "gocryptfs.conf" = true
   /\ GetAttr plain_host "gocryptfs.conf" tt = Returns (None, EPERM)
   /\ Access plain_host "gocryptfs.conf" 4 tt = EPERM
   /\ Open plain_host "gocryptfs.conf" O_RDONLY tt = (None, EPERM)
   /\ OpenDir plain_host "" tt
      = (Some [ entry (reg_mode 0x1a4) "notes.txt";
                entry (reg_mode 0x180) "gocryptfs.conf";
                entry (dir_mode 0x1ed) "docs";
                entry (dir_mode 0x180) "locked";
                entry (reg_mode 0x1a4) "mygocryptfs.diriv";
                dirIVEntry ], OK))
  /\ (isFiltered crypt_host "hpdszqugt.dpog" = true
      /\ GetAttr crypt_host "hpdszqugt.dpog" tt = Returns (None, EPERM)
      /\ exists l,
          OpenDir crypt_host "" tt = (Some l, OK)
          /\ In (entry (reg_mode 0x180) "hpdszqugt.dpog") l).
Proof.
  repeat split.
  eexists. split; [reflexivity|]. simpl. tauto.
Qed.

(** What [Access] checks for a path that is not excluded: the path
    [encryptPath] makes of it. *)
Lemma Access_checks_encrypted_path (rfs : reverseFS) (relPath : string)
    (mode : Z) (context : Context rfs) (cPath : string) :
  isFiltered rfs relPath = false ->
  abs rfs (encryptPath rfs relPath) = (cPath, None) ->
  Access rfs relPath mode context
  = ToStatus rfs (syscall_Access rfs cPath mode).
Proof. unfold Access. intros -> ->. reflexivity. Qed.

(** C5: [GetAttr] and [Open] resolve the path of [notes.txt] with
    [decryptPath], and the host grants read access to the file; [Access]
    encrypts the path once more and checks a file that does not exist.
    For the virtual directory-IV file of the root, whose attributes
    [GetAttr] serves, [Access] asks the host for a file of that name and
    fails. *)
Theorem Access_translates_with_encryptPath :
  (exists a, GetAttr crypt_host "opuft.uyu" tt = Returns (Some a, OK))
  /\ Open crypt_host "opuft.uyu" O_RDONLY tt
     = (Some ("/plain/notes.txt", O_RDONLY), OK)
  /\ syscall_Access crypt_host "/plain/notes.txt" 4 = None
  /\ abs crypt_host (encryptPath crypt_host "opuft.uyu")
     = ("/plain/pqvgu.vzv", None)
  /\ Access crypt_host "opuft.uyu" 4 tt = ENOENT
  /\ (exists a, GetAttr plain_host "gocryptfs.diriv" tt
                = Returns (Some a, OK))
  /\ Access plain_host "gocryptfs.diriv" 0 tt = ENOENT
  /\ Access crypt_host "gocryptfs.diriv" 0 tt = ENOENT.
Proof. repeat split; eexists; reflexivity. Qed.

Lemma Open_forwards_flags_witness :
  Open crypt_host "opuft.uyu" O_RDONLY tt
  = (Some ("/plain/notes.txt", O_RDONLY), OK).
Proof.
  rewrite (@Open_forwards_flags crypt_host "opuft.uyu" O_RDONLY tt
             "/plain/notes.txt" eq_refl eq_refl).
  reflexivity.
Defined.

(** C6, as stated, fails: opened for writing with truncation, the
    plaintext file is opened on the host with these very flags. *)
Lemma Open_grants_write_access :
  Z.land (Z.lor O_WRONLY O_TRUNC) O_ACCMODE = O_WRONLY
  /\ Open crypt_host "opuft.uyu" (Z.lor O_WRONLY O_TRUNC) tt
     = (Some ("/plain/notes.txt", Z.lor O_WRONLY O_TRUNC), OK)
  /\ os_OpenFile crypt_host "/plain/notes.txt" (Z.lor O_WRONLY O_TRUNC)
       0x1b6
     = (Some ("/plain/notes.txt", Z.lor O_WRONLY O_TRUNC), None).
Proof. repeat split. Qed.


Lemma GetAttr_dirIV_frame_witness :
  exists dir a,
    decryptPath crypt_host (dirIVParent "epdt/gocryptfs.diriv")
    = (dir, None)
    /\ loopbackfs_GetAttr crypt_host dir tt = (Some a, OK)
    /\ Ino a = 13 /\ Uid a = 1000 /\ Mtime a = 1472400000.
Proof.
  destruct (@GetAttr_dirIV_frame crypt_host "epdt/gocryptfs.diriv" tt
              (set_Nlink (set_Size (set_Mode
                 (attr 13 (dir_mode 0x1ed) 4096 2) DirIVMode) DirIVLen) 1)
              OK eq_refl eq_refl)
    as (dir & a & Hd & Hl & Ha & Hino & _ & _ & Hmtime & _ & _ & _ & _
        & Huid & _).
  exists dir, a. repeat split; try assumption.
  - rewrite <- Hino. reflexivity.
  - rewrite <- Huid. reflexivity.
  - rewrite <- Hmtime. reflexivity.
Defined.

End ReverseFS_samples.

(** ** [loadConfig] and [changePassword] *)

Section Main_facts.

Import Main.

Variable ConfFile : Type.

(** Running against an oracle gives a run. *)
Lemma exec_runs (A : Type) (o : Oracle ConfFile) (p : Prog ConfFile A) :
  runs p (fst (exec o p)) (snd (exec o p)).
Proof.
  induction p as [a | X c k IH]; simpl.
  - split; reflexivity.
  - destruct (o X c) as [x|].
    + left. exists x. specialize (IH x).
      destruct (exec o (k x)) as [tr out]. simpl in *. eauto.
    + right. destruct (halted c); reflexivity.
Qed.

(** One step of [exec] on a call the oracle answers. *)
Lemma exec_answer (A X : Type) (o : Oracle ConfFile) (c : Call ConfFile X)
    (k : X -> Prog ConfFile A) (x : X) :
  o _ c = Some x ->
  fst (exec o (Do c k)) = obs c x :: fst (exec o (k x)).
Proof.
  intros H. simpl. rewrite H. now destruct (exec o (k x)).
Qed.

(** Takes a run of a program apart, call by call. *)
Ltac run_cases :=
  repeat (simpl in *;
          match goal with
          | H : _ \/ _ |- _ => destruct H
          | H : exists _, _ |- _ => destruct H
          | H : _ /\ _ |- _ => destruct H
          | H : False |- _ => destruct H
          | x : Empty_set |- _ => destruct x
          | H : (_, _) = (_, _) |- _ => inversion H; clear H
          | H : _ :: _ = [] |- _ => discriminate H
          | H : [] = _ :: _ |- _ => discriminate H
          | H : Exited _ = Stuck |- _ => discriminate H
          | H : Stuck = Exited _ |- _ => discriminate H
          | H : Returned _ = Exited _ |- _ => discriminate H
          | H : Exited _ = Returned _ |- _ => discriminate H
          | H : Returned _ = Stuck |- _ => discriminate H
          | H : Stuck = Returned _ |- _ => discriminate H
          | H : Exited _ = Exited _ |- _ => inversion H; clear H
          | H : Returned _ = Returned _ |- _ => inversion H; clear H
          | H : runs (match ?x with _ => _ end) _ _ |- _ => destruct x
          | H : runs (bind (match ?x with _ => _ end) _) _ _ |- _ =>
              destruct x
          | H : EncryptKey_ _ _ _ _ = EncryptKey_ _ _ _ _ |- _ =>
              inversion H; clear H
          | H : WriteFile_ _ _ = WriteFile_ _ _ |- _ =>
              inversion H; clear H
          | H : _ = EncryptKey_ _ _ _ _ |- _ => discriminate H
          | H : _ = WriteFile_ _ _ |- _ => discriminate H
          end; subst).

(** A run of [loadConfig] that returns has loaded what it returns with
    the password typed at the prompt. *)
Lemma loadConfig_returns (filename : string) (tr : list (Obs ConfFile))
    (masterkey : bytes) (confFile : ConfFile) :
  runs (loadConfig filename) tr (Returned (masterkey, confFile)) ->
  exists pw,
    tr = [ Stat_ filename None; Print_ "Password: "; readPassword_ pw;
           Info_ "Decrypting master key... "; WarnDisable_;
           LoadConfFile_ filename pw masterkey confFile None;
           WarnEnable_; Info_ ("done." ++ nl) ].
Proof.
  unfold loadConfig. intros H. run_cases. eauto.
Qed.


(** C7: in every run of [changePassword] that reaches [EncryptKey], the
    key handed to [EncryptKey] is the master key [LoadConfFile] returned
    for the password typed at the prompt, the config file is the one
    loaded, and the config file written is the one [EncryptKey] left;
    and when the load succeeds and the new password is read, the run does
    reach [EncryptKey] with that key. *)
Theorem changePassword_rewraps_loaded_key (filename : string) :
  (forall (tr : list (Obs ConfFile)) (out : Outcome unit)
          (confFile : ConfFile) (key : bytes) (newPw : string)
          (confFile' : ConfFile),
      runs (changePassword filename) tr out ->
      In (EncryptKey_ confFile key newPw confFile') tr ->
      exists oldPw rest,
        tr = ([ Stat_ filename None; Print_ "Password: ";
                readPassword_ oldPw; Info_ "Decrypting master key... ";
                WarnDisable_;
                LoadConfFile_ filename oldPw key confFile None;
                WarnEnable_; Info_ ("done." ++ nl);
                Print_ ("Please enter your new password." ++ nl);
                readPasswordTwice_ newPw;
                EncryptKey_ confFile key newPw confFile' ] ++ rest)%list
        /\ (forall written err, In (WriteFile_ written err) rest ->
                                written = confFile'))
  /\ (forall (o : Oracle ConfFile) (oldPw : string) (key : bytes)
             (confFile : ConfFile) (newPw : string) (confFile' : ConfFile),
         answers_load o filename oldPw key confFile newPw confFile' ->
         In (EncryptKey_ confFile key newPw confFile')
            (fst (exec o (changePassword filename)))).
Proof.
  split.
  - unfold changePassword, loadConfig. intros tr out cf key newPw cf' H Hin.
    run_cases;
      (eexists; eexists; split; [reflexivity|]);
      intros written werr Hw; run_cases; reflexivity.
  - intros o oldPw key cf newPw cf'
           (Hstat & Hprint & Hinfo & Hwd & Hwe & Hpw & Hload & Hnew & Henc).
    unfold changePassword, loadConfig, call. cbn [bind].
    repeat (erewrite exec_answer
              by first [eassumption | apply Hprint | apply Hinfo];
            cbn [bind obs fst snd]).
    cbn [In]. tauto.
Qed.

End Main_facts.

Section Main_samples.

Import Main.



Lemma changePassword_rewraps_loaded_key_witness :
  exists oldPw rest,
    fst (exec (session disk0 "old-password" "new-password")
           (changePassword "/c/gocryptfs.conf"))
    = ([ Stat_ "/c/gocryptfs.conf" None; Print_ "Password: ";
         readPassword_ oldPw; Info_ "Decrypting master key... ";
         WarnDisable_;
         LoadConfFile_ "/c/gocryptfs.conf" oldPw key0
           (Some ("old-password", key0)) None;
         WarnEnable_; Info_ ("done." ++ nl);
         Print_ ("Please enter your new password." ++ nl);
         readPasswordTwice_ "new-password";
         EncryptKey_ (Some ("old-password", key0)) key0 "new-password"
           (Some ("new-password", key0)) ] ++ rest)%list
    /\ (forall written err, In (WriteFile_ written err) rest ->
                            written = Some ("new-password", key0)).
Proof.
  destruct (@changePassword_rewraps_loaded_key ToyConf "/c/gocryptfs.conf")
    as (Hkey & Hreach).
  apply (Hkey _ _ (Some ("old-password", key0)) key0 "new-password"
           (Some ("new-password", key0))
           (exec_runs (session disk0 "old-password" "new-password")
              (changePassword "/c/gocryptfs.conf"))).
  apply (Hreach (session disk0 "old-password" "new-password")
           "old-password").
  repeat split.
Defined.

End Main_samples.

(** * Further properties *)

(** ** The directory-IV test and the parent directory of [GetAttr] *)

Section Path_facts.

Import GoLib ReverseFS ReverseFSExt.

Lemma list_ascii_of_string_app (s1 s2 : string) :
  list_ascii_of_string (s1 ++ s2)
  = (list_ascii_of_string s1 ++ list_ascii_of_string s2)%list.
Proof. induction s1 as [|c s1 IH]; simpl; congruence. Qed.

Lemma string_of_list_ascii_app (l1 l2 : list ascii) :
  string_of_list_ascii (l1 ++ l2)
  = string_of_list_ascii l1 ++ string_of_list_ascii l2.
Proof. induction l1 as [|c l1 IH]; simpl; congruence. Qed.

Lemma length_append (s1 s2 : string) :
  String.length (s1 ++ s2) = (String.length s1 + String.length s2)%nat.
Proof. induction s1 as [|c s1 IH]; simpl; congruence. Qed.

Lemma substring_all (s : string) : substring 0 (String.length s) s = s.
Proof. induction s as [|c s IH]; simpl; congruence. Qed.

Lemma substring_append (p t : string) :
  substring (String.length p) (String.length t) (p ++ t) = t.
Proof.
  induction p as [|c p IH]; simpl.
  - apply substring_all.
  - exact IH.
Qed.

Lemma substring_split (s : string) (n : nat) :
  (n <= String.length s)%nat ->
  exists p, s = p ++ substring n (String.length s - n) s.
Proof.
  revert n. induction s as [|c s IH]; intros n Hn.
  - exists "". destruct n; reflexivity.
  - destruct n as [|n].
    + exists "". simpl. now rewrite substring_all.
    + simpl in Hn. destruct (IH n) as (p & Hp); [lia|].
      exists (String c p). simpl. now rewrite <- Hp.
Qed.

(** [strings.HasSuffix] holds exactly of the strings that end with the
    suffix. *)
Lemma HasSuffix_iff (s suffix : string) :
  HasSuffix s suffix = true <-> exists p, s = p ++ suffix.
Proof.
  unfold HasSuffix. split.
  - intros H. apply andb_prop in H as [Hlen Heq].
    apply Nat.leb_le in Hlen. apply String.eqb_eq in Heq.
    destruct (@substring_split s
                (String.length s - String.length suffix)%nat)
      as (p & Hp); [lia|].
    replace (String.length s - (String.length s - String.length suffix))%nat
      with (String.length suffix) in Hp by lia.
    rewrite Heq in Hp. eauto.
  - intros (p & ->). rewrite length_append.
    replace (String.length p + String.length suffix
             - String.length suffix)%nat
      with (String.length p) by lia.
    rewrite substring_append, String.eqb_refl, andb_true_r.
    apply Nat.leb_le. lia.
Qed.

(** X1: the test at the head of [GetAttr] takes a path for the virtual
    directory-IV file exactly when the path is some string, empty or not,
    followed by the directory-IV filename. *)
Theorem isDirIVPath_iff (relPath : string) :
  isDirIVPath relPath = true
  <-> exists prefix, relPath = prefix ++ DirIVFilename.
Proof. rewrite isDirIVPath_HasSuffix. apply HasSuffix_iff. Qed.

Lemma list_ascii_eqb_eq (a b : list ascii) :
  list_ascii_eqb a b = true <-> a = b.
Proof.
  unfold list_ascii_eqb. rewrite String.eqb_eq. split.
  - intros H.
    rewrite <- (list_ascii_of_string_of_list_ascii a),
            <- (list_ascii_of_string_of_list_ascii b).
    now rewrite H.
  - now intros ->.
Qed.

Lemma split_dir_no_slash (l : list ascii) :
  existsb is_slash l = false -> split_dir l = [].
Proof.
  induction l as [|c l IH]; simpl; intros H.
  - reflexivity.
  - apply orb_false_elim in H as [Hc Hl]. now rewrite Hl, Hc.
Qed.

Lemma split_dir_app (a name : list ascii) :
  existsb is_slash name = false ->
  split_dir (a ++ "/"%char :: name) = (a ++ ["/"%char])%list.
Proof.
  intros H. induction a as [|c a IH]; simpl.
  - now rewrite H.
  - rewrite existsb_app. simpl. rewrite orb_true_r. now rewrite IH.
Qed.

Lemma copy_element_plain (c rest rout : list ascii) :
  existsb is_slash c = false ->
  at_element_end rest = true ->
  copy_element (c ++ rest) rout = (rest, (rev c ++ rout)%list).
Proof.
  revert rout. induction c as [|x c IH]; simpl; intros rout Hc Hr.
  - destruct rest as [|y rest]; simpl in *; [reflexivity|].
    now rewrite Hr.
  - apply orb_false_elim in Hc as [Hx Hc]. rewrite Hx, IH by assumption.
    now rewrite <- app_assoc.
Qed.

(** One turn of the loop of [path.Clean] on a plain element. *)
Lemma clean_loop_component (fuel : nat) (c rest rout : list ascii) :
  is_plain c = true ->
  existsb is_slash c = false ->
  at_element_end rest = true ->
  clean_loop (S fuel) false (c ++ rest) rout 0
  = clean_loop fuel false rest
      (rev c ++ (if negb (List.length rout =? 0)%nat
                 then "/"%char :: rout else rout))%list 0.
Proof.
  intros Hp Hc Hr.
  assert (Hcopy := @copy_element_plain c rest
                     (if negb (List.length rout =? 0)%nat
                      then "/"%char :: rout else rout) Hc Hr).
  unfold is_plain in Hp.
  apply andb_prop in Hp as [Hp H2]. apply andb_prop in Hp as [H0 H1].
  destruct c as [|c0 c']; [discriminate|].
  simpl in Hc. apply orb_false_elim in Hc as [Hc0 Hc'].
  cbn [clean_loop app]. rewrite Hc0.
  destruct (Ascii.eqb_spec c0 "."%char) as [->|Hne]; cbn [andb].
  - destruct c' as [|c1 c'']; [discriminate|].
    simpl in Hc'. apply orb_false_elim in Hc' as [Hc1 Hc''].
    cbn [app at_element_end]. rewrite Hc1.
    destruct (Ascii.eqb_spec c1 "."%char) as [->|Hne1]; cbn [andb].
    + destruct c'' as [|c2 c3]; [discriminate|].
      simpl in Hc''. apply orb_false_elim in Hc'' as [Hc2 _].
      cbn [app at_element_end]. rewrite Hc2.
      cbn [andb orb negb]. cbn [app] in Hcopy. rewrite Hcopy. reflexivity.
    + cbn [andb orb negb]. cbn [app] in Hcopy. rewrite Hcopy.
      reflexivity.
  - cbn [andb orb negb]. cbn [app] in Hcopy. rewrite Hcopy. reflexivity.
Qed.

Lemma at_element_end_joinsep (cs : list (list ascii)) (tail : list ascii) :
  at_element_end tail = true ->
  at_element_end (joinsep cs ++ tail) = true.
Proof. destruct cs; simpl; auto. Qed.

Lemma clean_loop_joinsep (cs : list (list ascii)) :
  Forall (fun c => is_plain c = true /\ existsb is_slash c = false) cs ->
  forall (fuel : nat) (rout tail : list ascii),
    rout <> [] ->
    at_element_end tail = true ->
    (List.length (joinsep cs ++ tail) <= fuel)%nat ->
    exists fuel',
      (List.length tail <= fuel')%nat
      /\ clean_loop fuel false (joinsep cs ++ tail) rout 0
         = clean_loop fuel' false tail (rev (joinsep cs) ++ rout)%list 0.
Proof.
  induction 1 as [|c cs [Hp Hc] Hcs IH]; intros fuel rout tail Hne Ht Hlen.
  - exists fuel. split; [exact Hlen | reflexivity].
  - assert (Hc1 : (1 <= List.length c)%nat).
    { destruct c; [discriminate | simpl; lia]. }
    cbn [joinsep app] in *. rewrite <- app_assoc in *.
    cbn [List.length] in Hlen. rewrite length_app in Hlen.
    destruct fuel as [|[|fuel]]; try lia.
    change (clean_loop (S (S fuel)) false
              ("/"%char :: c ++ joinsep cs ++ tail) rout 0)
      with (clean_loop (S fuel) false (c ++ joinsep cs ++ tail) rout 0).
    rewrite clean_loop_component
      by (auto using at_element_end_joinsep).
    destruct rout as [|r0 rout]; [congruence|]. cbn [List.length Nat.eqb negb].
    destruct (IH fuel (rev c ++ "/"%char :: r0 :: rout)%list tail)
      as (fuel' & Hf & E); auto.
    + destruct (rev c); discriminate.
    + lia.
    + exists fuel'. split; [exact Hf|]. rewrite E. f_equal.
      cbn [rev]. rewrite rev_app_distr, <- !app_assoc. reflexivity.
Qed.

Lemma clean_loop_tail (fuel : nat) (rout tail : list ascii) :
  tail = [] \/ tail = ["/"%char] ->
  (List.length tail <= fuel)%nat ->
  clean_loop fuel false tail rout 0 = rout.
Proof.
  intros [->| ->] Hlen.
  - destruct fuel; reflexivity.
  - destruct fuel as [|fuel]; [simpl in Hlen; lia|].
    destruct fuel; reflexivity.
Qed.

(** [path.Clean] keeps a clean relative path and drops one trailing
    slash. *)
Lemma Clean_plain (c1 : list ascii) (cs : list (list ascii))
    (tail : list ascii) :
  Forall (fun c => is_plain c = true /\ existsb is_slash c = false)
         (c1 :: cs) ->
  tail = [] \/ tail = ["/"%char] ->
  Clean (string_of_list_ascii (c1 ++ joinsep cs ++ tail))
  = string_of_list_ascii (c1 ++ joinsep cs).
Proof.
  intros Hall Ht. inversion Hall as [|? ? [Hp Hc] Hcs]; subst.
  assert (Hend : at_element_end tail = true) by (destruct Ht; now subst).
  unfold Clean. rewrite list_ascii_of_string_of_list_ascii.
  destruct c1 as [|c0 c1']; [discriminate|].
  assert (Hc0 : is_slash c0 = false).
  { simpl in Hc. now apply orb_false_elim in Hc as [? _]. }
  cbn [app]. rewrite Hc0.
  change (c0 :: c1' ++ joinsep cs ++ tail)%list
    with ((c0 :: c1') ++ joinsep cs ++ tail)%list.
  remember (c0 :: c1') as c1 eqn:E1.
  assert (Hlen1 : (1 <= List.length c1)%nat) by (subst; simpl; lia).
  rewrite length_app.
  destruct (List.length c1) as [|n1] eqn:En; [lia|].
  cbn [Nat.add].
  rewrite clean_loop_component
    by (auto using at_element_end_joinsep).
  cbn [List.length Nat.eqb negb]. rewrite app_nil_r.
  destruct (@clean_loop_joinsep cs Hcs (n1 + List.length (joinsep cs ++ tail))
              (rev c1) tail) as (fuel' & Hf & E); auto.
  { subst c1. cbn [rev]. destruct (rev c1'); discriminate. }
  { lia. }
  rewrite E, clean_loop_tail by assumption.
  destruct (rev (joinsep cs) ++ rev c1)%list eqn:Eo.
  - apply (f_equal (@List.length ascii)) in Eo.
    rewrite length_app, !length_rev, En in Eo. simpl in Eo. lia.
  - rewrite <- Eo, rev_app_distr, !rev_involutive. subst c1.
    reflexivity.
Qed.

Lemma components_joinsep (l : list ascii) :
  exists c1 cs,
    components l = c1 :: cs
    /\ l = (c1 ++ joinsep cs)%list
    /\ Forall (fun c => existsb is_slash c = false) (c1 :: cs).
Proof.
  induction l as [|c l (c1 & cs & E & Hl & Hall)].
  - exists [], []. repeat split. repeat constructor.
  - simpl. destruct (is_slash c) eqn:Hc.
    + exists [], (c1 :: cs). rewrite E. repeat split.
      * unfold is_slash in Hc. apply Ascii.eqb_eq in Hc. subst c.
        simpl. now rewrite Hl at 1.
      * constructor; [reflexivity | exact Hall].
    + exists (c :: c1), cs. rewrite E. repeat split.
      * simpl. now rewrite Hl at 1.
      * inversion Hall; subst. constructor; [|assumption].
        simpl. now rewrite Hc.
Qed.

Lemma is_clean_rel_elements (d : string) :
  is_clean_rel d = true ->
  exists c1 cs,
    list_ascii_of_string d = (c1 ++ joinsep cs)%list
    /\ Forall (fun c => is_plain c = true /\ existsb is_slash c = false)
              (c1 :: cs).
Proof.
  unfold is_clean_rel. intros H.
  destruct (components_joinsep (list_ascii_of_string d))
    as (c1 & cs & E & Hl & Hall).
  exists c1, cs. split; [exact Hl|].
  rewrite E in H. rewrite forallb_forall in H.
  rewrite Forall_forall in *. intros c Hin. split; auto.
Qed.

(** [path.Dir] of an entry of a clean relative directory is the
    directory. *)
Lemma Dir_child (d name : string) :
  is_clean_rel d = true ->
  no_slash name = true ->
  Dir (d ++ "/" ++ name) = d.
Proof.
  intros Hd Hn. unfold no_slash in Hn. apply negb_true_iff in Hn.
  destruct (@is_clean_rel_elements d Hd) as (c1 & cs & E & Hall).
  unfold Dir. rewrite list_ascii_of_string_app. cbn [append].
  change (list_ascii_of_string (String "/" name))
    with ("/"%char :: list_ascii_of_string name).
  rewrite split_dir_app by assumption.
  rewrite E, <- app_assoc, Clean_plain by auto.
  now rewrite <- E, string_of_list_ascii_of_string.
Qed.

Lemma Dir_no_slash (name : string) :
  no_slash name = true -> Dir name = ".".
Proof.
  intros Hn. unfold no_slash in Hn. apply negb_true_iff in Hn.
  unfold Dir. now rewrite split_dir_no_slash.
Qed.

(** X2: the parent directory [GetAttr] decrypts for a directory-IV path
    is the root (the empty path) for a name without a slash, and the
    directory [d] for the entry [d/name] of a clean relative directory
    [d]. *)
Theorem dirIVParent_child (d name : string) :
  no_slash name = true ->
  dirIVParent name = ""
  /\ (is_clean_rel d = true -> dirIVParent (d ++ "/" ++ name) = d).
Proof.
  intros Hn. unfold dirIVParent. split.
  - now rewrite Dir_no_slash.
  - intros Hd. rewrite Dir_child by assumption.
    destruct (String.eqb_spec d ".") as [->|_]; [discriminate|reflexivity].
Qed.

End Path_facts.

(** ** Results, failures and panics of the handlers *)

Section ReverseFS_more.

Import GoLib ReverseFS ReverseFSExt.

Variable rfs : reverseFS.

Lemma Ok_true (status : Status) : Ok status = true <-> status = OK.
Proof. unfold Ok. apply Z.eqb_eq. Qed.

Lemma Ok_false (status : Status) : Ok status = false <-> status <> OK.
Proof. unfold Ok. apply Z.eqb_neq. Qed.

(** X3: [GetAttr] returns attributes only together with the status [OK];
    and it returns [OK] without attributes only when [decryptPath] fails
    with an error that [fuse.ToStatus] maps to [OK]. *)
Theorem GetAttr_attr_status (relPath : string) (context : Context rfs)
    (oa : option Attr) (st : Status) :
  GetAttr rfs relPath context = Returns (oa, st) ->
  (forall a, oa = Some a -> st = OK)
  /\ (oa = None -> st = OK ->
      exists err,
        snd (decryptPath rfs (lookupPath relPath)) = Some err
        /\ errStatus rfs err = OK).
Proof.
  unfold GetAttr, lookupPath, isDirIVPath, dirIVParent. cbv zeta.
  intros H.
  repeat match type of H with
         | context [if ?c then _ else _] => destruct c eqn:?
         | context [match ?x with _ => _ end] => destruct x eqn:?
         | context [let '(_, _) := ?x in _] => destruct x eqn:?
         end;
    cbn [negb] in *; try discriminate;
    injection H as <- <-;
    (split; [intros ? [=]; try reflexivity|]);
    intros Hn E; try discriminate Hn; try discriminate E;
    try match goal with
        | Hok : negb (Ok ?s) = true |- _ =>
            rewrite E in Hok; discriminate Hok
        end;
    (eexists; split; [reflexivity | exact E]).
Qed.

(** X4: [GetAttr] panics exactly when the path is looked up (it is a
    directory-IV path or is not excluded), the path handed to
    [decryptPath] decrypts, and the loopback filesystem answers [OK] with
    a [nil] attribute pointer. *)
Theorem GetAttr_panics_iff (relPath : string) (context : Context rfs) :
  GetAttr rfs relPath context = Panics
  <-> (isDirIVPath relPath = true \/ isFiltered rfs relPath = false)
      /\ exists q,
           decryptPath rfs (lookupPath relPath) = (q, None)
           /\ loopbackfs_GetAttr rfs q context = (None, OK).
Proof.
  unfold GetAttr, lookupPath, isDirIVPath, dirIVParent. cbv zeta.
  destruct (String.eqb relPath DirIVFilename
            || HasSuffix relPath DirIVFilename).
  - destruct (decryptPath rfs _) as [dir [err|]].
    + split; [discriminate|]. intros (_ & q & [=] & _).
    + destruct (loopbackfs_GetAttr rfs dir context) as [[a|] status] eqn:E;
        destruct (Ok status) eqn:Hok; cbn [negb].
      * split.
        -- destruct (IsDir a); cbn [negb]; [|discriminate].
           destruct (Z.land (Mode a) S_IXUSR =? 0); discriminate.
        -- intros (_ & q & [= <-] & Hq). rewrite E in Hq. discriminate.
      * split; [discriminate|].
        intros (_ & q & [= <-] & Hq). rewrite E in Hq. discriminate.
      * apply Ok_true in Hok. subst status. split; [|reflexivity].
        intros _. split; [now left|]. eauto.
      * split; [discriminate|].
        intros (_ & q & [= <-] & Hq). rewrite E in Hq.
        apply Ok_false in Hok. congruence.
  - destruct (isFiltered rfs relPath).
    + split; [discriminate|]. intros ([H|H] & _); discriminate.
    + destruct (decryptPath rfs relPath) as [p [err|]].
      * split; [discriminate|]. intros (_ & q & [=] & _).
      * destruct (loopbackfs_GetAttr rfs p context) as [[a|] status] eqn:E;
          destruct (Ok status) eqn:Hok; cbn [negb].
        -- split; [discriminate|].
           intros (_ & q & [= <-] & Hq). rewrite E in Hq. discriminate.
        -- split; [discriminate|].
           intros (_ & q & [= <-] & Hq). rewrite E in Hq. discriminate.
        -- apply Ok_true in Hok. subst status. split; [|reflexivity].
           intros _. split; [now right|]. eauto.
        -- split; [discriminate|].
           intros (_ & q & [= <-] & Hq). rewrite E in Hq.
           apply Ok_false in Hok. congruence.
Qed.

(** X5: [GetAttr] tests for the directory-IV name before it consults the
    exclusion policy: on an excluded directory-IV path it answers as if
    nothing were excluded, while [Access] and [Open] refuse the same path
    with [EPERM]. *)
Theorem GetAttr_dirIV_before_exclusion (relPath : string) (mode flags : Z)
    (context : Context rfs) :
  isDirIVPath relPath = true ->
  isFiltered rfs relPath = true ->
  GetAttr rfs relPath context
  = GetAttr (with_isFiltered rfs (fun _ => false)) relPath context
  /\ Access rfs relPath mode context = EPERM
  /\ Open rfs relPath flags context = (None, EPERM).
Proof.
  unfold isDirIVPath, GetAttr, Access, Open. intros Hd Hf.
  rewrite Hd, Hf. repeat split.
Qed.

(** What the loop of [OpenDir] has done when it succeeds. *)
Lemma encryptNames_inl (es l : list DirEntry) :
  encryptNames rfs es = inl l ->
  (forall e, In e es -> snd (encryptPath rfs (Name e)) = None)
  /\ l = map (fun e => set_Name e (fst (encryptPath rfs (Name e)))) es.
Proof.
  revert l. induction es as [|e es IH]; simpl; intros l.
  - intros [= <-]. split; [intros e []|reflexivity].
  - destruct (encryptPath rfs (Name e)) as [n [err|]] eqn:E;
      [discriminate|].
    destruct (encryptNames rfs es) as [l'|err]; [|discriminate].
    intros [= <-]. destruct (IH l' eq_refl) as (Hall & ->).
    split; [|reflexivity].
    intros e' [<-|Hin]; [now rewrite E | now apply Hall].
Qed.

(** The loop reports the first name, in host order, that [encryptPath]
    rejects. *)
Lemma encryptNames_first_error (pre post : list DirEntry) (e : DirEntry)
    (err : error rfs) :
  (forall x, In x pre -> snd (encryptPath rfs (Name x)) = None) ->
  snd (encryptPath rfs (Name e)) = Some err ->
  encryptNames rfs (pre ++ e :: post) = inr err.
Proof.
  intros Hpre He. induction pre as [|x pre IH]; simpl.
  - destruct (encryptPath rfs (Name e)) as [n o]. simpl in He.
    now subst o.
  - pose proof (Hpre x (or_introl eq_refl)) as Hx.
    destruct (encryptPath rfs (Name x)) as [n o]. simpl in Hx. subst o.
    rewrite IH; [reflexivity|]. intros y Hy. apply Hpre. now right.
Qed.

Lemma OpenDir_inv (relPath : string) (context : Context rfs)
    (l : list DirEntry) (st : Status) :
  OpenDir rfs relPath context = (Some l, st) ->
  st = OK
  /\ exists p es st0,
       decryptPath rfs relPath = (p, None)
       /\ loopbackfs_OpenDir rfs p context = (Some es, st0)
       /\ (forall e, In e es -> snd (encryptPath rfs (Name e)) = None)
       /\ l = (map (fun e =>
                      set_Name e (fst (encryptPath rfs (Name e)))) es
               ++ [dirIVEntry])%list.
Proof.
  unfold OpenDir.
  destruct (decryptPath rfs relPath) as [p [err|]] eqn:Hd; [discriminate|].
  destruct (loopbackfs_OpenDir rfs p context) as [[es|] st0] eqn:Hl;
    [|discriminate].
  destruct (encryptNames rfs es) as [l'|err] eqn:E; [|discriminate].
  intros [= <- <-]. split; [reflexivity|].
  destruct (encryptNames_inl _ E) as (Hall & ->).
  exists p, es, st0. repeat split; assumption.
Qed.

(** X6: a listing [OpenDir] returns is never partial: it comes with
    status [OK], the path decrypted, every name of the underlying listing
    was encrypted, and the listing is these entries followed by the
    virtual directory-IV entry, which is its last element; so a listing is
    never empty. *)
Theorem OpenDir_success_inv (relPath : string) (context : Context rfs)
    (l : list DirEntry) (st : Status) :
  OpenDir rfs relPath context = (Some l, st) ->
  st = OK
  /\ l <> []
  /\ last l (Build_DirEntry 0 "") = dirIVEntry
  /\ exists p es st0,
       decryptPath rfs relPath = (p, None)
       /\ loopbackfs_OpenDir rfs p context = (Some es, st0)
       /\ (forall e, In e es -> snd (encryptPath rfs (Name e)) = None)
       /\ List.length l = S (List.length es)
       /\ l = (map (fun e =>
                      set_Name e (fst (encryptPath rfs (Name e)))) es
               ++ [dirIVEntry])%list.
Proof.
  intros H. destruct (OpenDir_inv _ _ H)
    as (-> & p & es & st0 & Hd & Hl & Hall & ->).
  split; [reflexivity|]. split; [|split].
  - intros E. apply app_eq_nil in E as [_ E]. discriminate.
  - apply last_last.
  - exists p, es, st0. repeat split; try assumption.
    rewrite length_app, length_map. simpl. lia.
Qed.

(** X7: when [encryptPath] rejects a name of the underlying listing,
    [OpenDir] returns no listing and the status of the error of the first
    rejected name in host order, whatever follows it. *)
Theorem OpenDir_first_error (relPath : string) (context : Context rfs)
    (p : string) (pre post : list DirEntry) (e : DirEntry) (st : Status)
    (err : error rfs) :
  decryptPath rfs relPath = (p, None) ->
  loopbackfs_OpenDir rfs p context = (Some (pre ++ e :: post)%list, st) ->
  (forall x, In x pre -> snd (encryptPath rfs (Name x)) = None) ->
  snd (encryptPath rfs (Name e)) = Some err ->
  OpenDir rfs relPath context = (None, errStatus rfs err).
Proof.
  intros Hd Hl Hpre He. unfold OpenDir.
  rewrite Hd, Hl, (@encryptNames_first_error pre post e err Hpre He).
  reflexivity.
Qed.


Lemma isDirIVPath_childPath (dir : string) :
  isDirIVPath (childPath dir DirIVFilename) = true.
Proof.
  rewrite isDirIVPath_HasSuffix. apply HasSuffix_iff.
  unfold childPath. destruct (String.eqb dir "").
  - now exists "".
  - exists (dir ++ "/"). clear.
    induction dir as [|c dir IH]; [reflexivity|].
    cbn [append] in *. now rewrite IH.
Qed.

Lemma dirIVParent_childPath (dir : string) :
  dir = "" \/ is_clean_rel dir = true ->
  dirIVParent (childPath dir DirIVFilename) = dir.
Proof.
  unfold childPath, dirIVParent.
  intros [->|Hd]; [reflexivity|].
  destruct (String.eqb_spec dir "") as [->|_]; [discriminate|].
  rewrite Dir_child by (assumption || reflexivity).
  destruct (String.eqb_spec dir ".") as [->|_]; [discriminate|reflexivity].
Qed.

(** X9: the virtual entry that [OpenDir] lists can be looked up: for the
    root or a clean relative directory that is listed, is a directory and
    has owner execute permission, [GetAttr] on the path of the last entry
    of the listing succeeds, with the mode the listing shows for that
    entry, the size of a directory IV and the inode number of the
    directory. *)
Theorem OpenDir_dirIV_entry_GetAttr (relPath : string)
    (context : Context rfs) (l : list DirEntry) (st : Status)
    (a : Attr) :
  relPath = "" \/ is_clean_rel relPath = true ->
  OpenDir rfs relPath context = (Some l, st) ->
  loopbackfs_GetAttr rfs (fst (decryptPath rfs relPath)) context
  = (Some a, OK) ->
  IsDir a = true ->
  Z.land (Mode a) S_IXUSR <> 0 ->
  exists a',
    GetAttr rfs
      (childPath relPath (Name (last l (Build_DirEntry 0 "")))) context
    = Returns (Some a', OK)
    /\ Mode a' = EntryMode (last l (Build_DirEntry 0 ""))
    /\ Size a' = DirIVLen
    /\ Ino a' = Ino a.
Proof.
  intros Hrel Hlist Hattr Hdir Hx.
  destruct (OpenDir_inv _ _ Hlist)
    as (_ & p & es & st0 & Hd & _ & _ & ->).
  rewrite last_last. cbn [Name dirIVEntry].
  rewrite Hd in Hattr. cbn [fst] in Hattr.
  rewrite (@GetAttr_dirIV_branch rfs _ context p (Some a) OK
             (isDirIVPath_childPath relPath)).
  - rewrite Ok_OK, Hdir. cbn [negb].
    apply Z.eqb_neq in Hx. rewrite Hx.
    eexists. repeat split.
  - now rewrite dirIVParent_childPath.
  - exact Hattr.
Qed.

End ReverseFS_more.

(** ** Further properties of [loadConfig] and [changePassword] *)

Section Main_more.

Import Main MainExt.

Variable ConfFile : Type.

Ltac run_cases' :=
  repeat (simpl in *;
          match goal with
          | H : _ \/ _ |- _ => destruct H
          | H : exists _, _ |- _ => destruct H
          | H : _ /\ _ |- _ => destruct H
          | H : False |- _ => destruct H
          | x : Empty_set |- _ => destruct x
          | H : (_, _) = (_, _) |- _ => inversion H; clear H
          | H : runs (match ?x with _ => _ end) _ _ |- _ => destruct x
          | H : runs (bind (match ?x with _ => _ end) _) _ _ |- _ =>
              destruct x
          | H : ?a = ?b |- _ =>
              first [ discriminate H
                    | is_var a; subst a
                    | is_var b; subst b
                    | injection H; clear H; intros ]
          end).

(** X10: [loadConfig] prompts for the password only after [os.Stat] has
    found the file, and it calls [LoadConfFile] only on the file it was
    given, with the password typed at the prompt. *)
Theorem loadConfig_prompt_after_stat (filename : string)
    (tr : list (Obs ConfFile)) (out : Outcome (bytes * ConfFile)) :
  runs (loadConfig filename) tr out ->
  (forall pw, In (readPassword_ pw) tr ->
              exists rest,
                tr = Stat_ filename None :: Print_ "Password: "
                     :: readPassword_ pw :: rest)
  /\ (forall f pw masterkey confFile err,
         In (LoadConfFile_ f pw masterkey confFile err) tr ->
         f = filename /\ In (readPassword_ pw) tr).
Proof.
  unfold loadConfig. intros H. split.
  - intros pw Hin. run_cases'; eauto.
  - intros f pw mk cf err Hin. run_cases'; auto.
Qed.

(** X11: the runs of [loadConfig] that return are exactly the runs in
    which [os.Stat] finds the file and [LoadConfFile] succeeds for the
    password typed; what is returned is the master key and the config
    file of [LoadConfFile]. *)
Theorem loadConfig_returns_iff (filename : string)
    (tr : list (Obs ConfFile)) (masterkey : bytes) (confFile : ConfFile) :
  runs (loadConfig filename) tr (Returned (masterkey, confFile))
  <-> exists pw,
        tr = [ Stat_ filename None; Print_ "Password: "; readPassword_ pw;
               Info_ "Decrypting master key... "; WarnDisable_;
               LoadConfFile_ filename pw masterkey confFile None;
               WarnEnable_; Info_ ("done." ++ nl) ].
Proof.
  split.
  - apply loadConfig_returns.
  - intros (pw & ->). unfold loadConfig. simpl.
    left. exists None. eexists. split; [reflexivity|].
    left. exists tt. eexists. split; [reflexivity|].
    left. exists pw. eexists. split; [reflexivity|].
    left. exists tt. eexists. split; [reflexivity|].
    left. exists tt. eexists. split; [reflexivity|].
    left. exists (masterkey, confFile, None). eexists.
    split; [reflexivity|].
    left. exists tt. eexists. split; [reflexivity|].
    left. exists tt. eexists. split; [reflexivity|].
    split; reflexivity.
Qed.

Lemma warn_off_at_load_split (pre post : list (Obs ConfFile))
    (f pw : string) (masterkey : bytes) (confFile : ConfFile)
    (err : option error) (enabled : bool) :
  warn_off_at_load
    (pre ++ LoadConfFile_ f pw masterkey confFile err :: post)%list enabled
  = true ->
  warn_state pre enabled = false.
Proof.
  revert enabled. induction pre as [|o pre IH]; intros enabled; simpl.
  - intros H. apply andb_prop in H as [H _]. now destruct enabled.
  - destruct o; auto. intros H. apply andb_prop in H as [_ H]. auto.
Qed.

(** X12: [loadConfig] silences the [Warn] logger around [LoadConfFile]
    only: [LoadConfFile] is called with the logger disabled, and whenever
    [loadConfig] returns or exits the logger is enabled again. *)
Theorem loadConfig_warn_bracket (filename : string)
    (tr : list (Obs ConfFile)) (out : Outcome (bytes * ConfFile)) :
  runs (loadConfig filename) tr out ->
  (forall pre post f pw masterkey confFile err,
      tr = (pre ++ LoadConfFile_ f pw masterkey confFile err :: post)%list ->
      warn_state pre true = false)
  /\ (out <> Stuck -> warn_state tr true = true).
Proof.
  unfold loadConfig. intros H. split.
  - intros pre post f pw mk cf err E.
    apply (@warn_off_at_load_split pre post f pw mk cf err true).
    rewrite <- E. clear E. run_cases'; reflexivity.
  - intros Hout. run_cases'; try reflexivity; now destruct Hout.
Qed.

(** X13: [changePassword] never returns.  It exits with status 0 only
    after [WriteFile] has succeeded, with [ERREXIT_INIT] only after
    [WriteFile] has failed and its error was printed, and with
    [ERREXIT_LOADCONF] only when loading failed, in which case nothing was
    encrypted or written. *)
Theorem changePassword_exit (filename : string)
    (tr : list (Obs ConfFile)) (out : Outcome unit) :
  runs (changePassword filename) tr out ->
  out <> Returned tt
  /\ (forall code, out = Exited code ->
        (code = 0 /\ exists cf, In (WriteFile_ cf None) tr)
        \/ (code = ERREXIT_INIT
            /\ exists cf err,
                 In (WriteFile_ cf (Some err)) tr
                 /\ In (Print_ (Error err ++ nl)) tr)
        \/ (code = ERREXIT_LOADCONF
            /\ (forall cf key pw cf', ~ In (EncryptKey_ cf key pw cf') tr)
            /\ (forall cf err, ~ In (WriteFile_ cf err) tr))).
Proof.
  unfold changePassword, loadConfig. intros H. split.
  - intros E. run_cases'.
  - intros code E. run_cases'.
    + right. right. split; [reflexivity|].
      split; intros; intros Hin; run_cases'.
    + right. right. split; [reflexivity|].
      split; intros; intros Hin; run_cases'.
    + right. left. split; [reflexivity|]. do 2 eexists.
      split; simpl; eauto 20.
    + left. split; [reflexivity|]. eexists. simpl. eauto 20.
Qed.

End Main_more.

(** ** [initDir], [pathfsFrontend] and [main] *)

Section Cli_facts.

Import Main Cli.

Variables ConfFile OsFile FileSystem PathNodeFs Node Connector
  RawFileSystem Server : Type.
Variable Root : PathNodeFs -> Node.
Variable RawFS : Connector -> RawFileSystem.
Variable KEY_LEN : nat.
Variable ConfDefaultName : string.
Variable HEADER_CURRENT_VERSION : Z.
Variable GitVersion : string.

Let Sys := Cli.Sys ConfFile OsFile FileSystem PathNodeFs Node Connector
             RawFileSystem Server.
Let Obs := Cli.Obs ConfFile OsFile FileSystem PathNodeFs Node Connector
             RawFileSystem Server.
Let Prog := Cli.Prog ConfFile OsFile FileSystem PathNodeFs Node Connector
              RawFileSystem Server.
Let pathfsFrontend
  : bytes -> string -> string -> bool -> bool -> bool -> Prog Server :=
  Cli.pathfsFrontend Root RawFS.
Let main : argContainer -> list string -> Prog unit :=
  Cli.main Root RawFS KEY_LEN ConfDefaultName HEADER_CURRENT_VERSION
    GitVersion.

(** Running against an oracle gives a run. *)
Lemma cli_exec_runs (A : Type)
    (o : Cli.Oracle ConfFile OsFile FileSystem PathNodeFs Node Connector
           RawFileSystem Server) (p : Prog A) :
  runs p (fst (exec o p)) (snd (exec o p)).
Proof.
  induction p as [a | X c k IH]; simpl.
  - split; reflexivity.
  - destruct (o X c) as [x|].
    + left. exists x. specialize (IH x).
      destruct (exec o (k x)) as [tr out]. simpl in *. eauto.
    + right. destruct (halted c); reflexivity.
Qed.

(** A run of [bind p f] is a run of [p] that returns followed by a run of
    [f], or a run of [p] that does not return. *)
Lemma runs_bind_inv (A B : Type) (p : Prog A) (f : A -> Prog B)
    (tr : list Obs) (out : Outcome B) :
  runs (bind p f) tr out ->
  (exists a tr1 tr2,
      runs p tr1 (Returned a) /\ runs (f a) tr2 out
      /\ tr = (tr1 ++ tr2)%list)
  \/ (exists code, runs p tr (Exited code) /\ out = Exited code)
  \/ (runs p tr Stuck /\ out = Stuck).
Proof.
  revert tr. induction p as [a | X c k IH]; intros tr H.
  - left. exists a, [], tr. simpl. auto.
  - simpl in H. destruct H as [(x & tr' & -> & H) | H].
    + destruct (IH x tr' H)
        as [(a & tr1 & tr2 & H1 & H2 & ->)
           | [(code & H1 & ->) | (H1 & ->)]].
      * left. exists a, (obs c x :: tr1), tr2. simpl. eauto 10.
      * right. left. exists code. simpl. eauto 10.
      * right. right. simpl. eauto 10.
    + right.
      destruct c as [X c| | | | | | | | | | | | | | | | | | | | | | | ];
        try (injection H as -> ->; right; split;
             [simpl; right; reflexivity | reflexivity]).
      destruct c;
        try (injection H as -> ->; right; split;
             [simpl; right; reflexivity | reflexivity]).
      injection H as -> ->. left. exists code. split;
        [simpl; right; reflexivity | reflexivity].
Qed.

Lemma runs_lift_inv (A : Type) (p : Main.Prog ConfFile A)
    (tr : list Obs) (out : Outcome A) :
  runs (lift p) tr out ->
  exists tr0, Main.runs p tr0 out /\ tr = map Base_ tr0.
Proof.
  revert tr. induction p as [a | X c k IH]; intros tr H; simpl in H.
  - destruct H as [-> ->]. exists []. simpl. auto.
  - destruct H as [(x & tr' & -> & H) | H].
    + destruct (IH x tr' H) as (tr0 & H0 & ->).
      exists (Main.obs c x :: tr0). simpl. eauto 10.
    + destruct c; injection H as -> ->;
        eexists; (split; [simpl; right; reflexivity | reflexivity]).
Qed.

Lemma always_Ret (P : Obs -> bool) (A : Type) (a : A) :
  always P (Ret a : Prog A).
Proof. intros tr out [-> _]. reflexivity. Qed.

Lemma always_Do (P : Obs -> bool) (A X : Type) (c : Sys X)
    (k : X -> Prog A) :
  (forall x, P (obs c x) = true) ->
  forallb P (fst (halted c : list Obs * Outcome A)) = true ->
  (forall x, always P (k x)) ->
  always P (Do c k).
Proof.
  intros Hc Hh Hk tr out H. simpl in H.
  destruct H as [(x & tr' & -> & H) | H].
  - simpl. rewrite Hc. exact (Hk x tr' out H).
  - rewrite <- H in Hh. exact Hh.
Qed.

Lemma always_bind (P : Obs -> bool) (A B : Type) (p : Prog A)
    (f : A -> Prog B) :
  always P p -> (forall a, always P (f a)) -> always P (bind p f).
Proof.
  intros Hp Hf tr out H.
  destruct (@runs_bind_inv _ _ _ _ _ _ H)
    as [(a & tr1 & tr2 & H1 & H2 & ->) | [(code & H1 & _) | (H1 & _)]].
  - rewrite forallb_app, (Hp _ _ H1), (Hf a _ _ H2). reflexivity.
  - exact (Hp _ _ H1).
  - exact (Hp _ _ H1).
Qed.

Lemma always_bind_no_return (P : Obs -> bool) (A B : Type) (p : Prog A)
    (f : A -> Prog B) :
  always P p -> no_return p -> always P (bind p f).
Proof.
  intros Hp Hn tr out H.
  destruct (@runs_bind_inv _ _ _ _ _ _ H)
    as [(a & tr1 & tr2 & H1 & _) | [(code & H1 & _) | (H1 & _)]].
  - destruct (Hn _ _ H1).
  - exact (Hp _ _ H1).
  - exact (Hp _ _ H1).
Qed.

Lemma no_return_bind (A B : Type) (p : Prog A) (f : A -> Prog B) :
  (forall a, no_return (f a)) -> no_return (bind p f).
Proof.
  intros Hf tr b H.
  destruct (@runs_bind_inv _ _ _ _ _ _ H)
    as [(a & tr1 & tr2 & _ & H2 & _) | [(code & _ & E) | (_ & E)]];
    try discriminate.
  exact (Hf a _ _ H2).
Qed.

Lemma no_return_bind_l (A B : Type) (p : Prog A) (f : A -> Prog B) :
  no_return p -> no_return (bind p f).
Proof.
  intros Hp tr b H.
  destruct (@runs_bind_inv _ _ _ _ _ _ H)
    as [(a & tr1 & tr2 & H1 & _) | [(code & _ & E) | (_ & E)]];
    try discriminate.
  exact (Hp _ _ H1).
Qed.

Lemma no_return_exit (A : Type) (code : Z) :
  no_return (exit code : Prog A).
Proof.
  intros tr a H. simpl in H.
  destruct H as [(x & _) | H]; [destruct x | discriminate].
Qed.

Lemma always_lift (P : Obs -> bool) (A : Type)
    (p : Main.Prog ConfFile A) :
  (forall tr out, Main.runs p tr out ->
                  forallb (fun o => P (Base_ o)) tr = true) ->
  always P (lift p : Prog A).
Proof.
  intros Hp tr out H.
  destruct (@runs_lift_inv _ _ _ _ H) as (tr0 & H0 & ->).
  rewrite forallb_forall. intros o Hin.
  apply in_map_iff in Hin as (o0 & <- & Hin0).
  specialize (Hp _ _ H0). rewrite forallb_forall in Hp. auto.
Qed.

Lemma no_return_lift (A : Type) (p : Main.Prog ConfFile A) :
  (forall tr a, ~ Main.runs p tr (Returned a)) ->
  no_return (lift p : Prog A).
Proof.
  intros Hp tr a H.
  destruct (@runs_lift_inv _ _ _ _ H) as (tr0 & H0 & _). exact (Hp _ _ H0).
Qed.


Ltac head_scrutinee p :=
  lazymatch p with
  | bind ?q _ => head_scrutinee q
  | lift ?q => head_scrutinee q
  | Main.bind ?q _ => head_scrutinee q
  | match ?x with _ => _ end => x
  end.

Ltac cli_cases :=
  repeat (simpl in *;
          match goal with
          | H : _ \/ _ |- _ => destruct H
          | H : exists _, _ |- _ => destruct H
          | H : _ /\ _ |- _ => destruct H
          | H : False |- _ => destruct H
          | x : Empty_set |- _ => destruct x
          | H : (_, _) = (_, _) |- _ => inversion H; clear H
          | H : runs (match ?x with _ => _ end) _ _ |- _ => destruct x
          | H : runs (bind (match ?x with _ => _ end) _) _ _ |- _ =>
              destruct x
          | H : runs (let '(_, _) := ?x in _) _ _ |- _ => destruct x
          | H : runs ?p _ _ |- _ =>
              let x := head_scrutinee p in destruct x
          | H : ?a = ?b |- _ =>
              first [ discriminate H
                    | is_var a; subst a
                    | is_var b; subst b
                    | injection H; clear H; intros ]
          end).

(** X14: [initDir] never returns.  It asks for a password only after
    [checkDirEmpty] has accepted the directory; it creates the config
    file at [args.config] with the password typed and the
    [plaintextnames] flag; it exits with status 0 only after
    [CreateConfFile] has succeeded and with [ERREXIT_INIT] when the
    directory is refused or the creation fails. *)
Theorem initDir_exit (args : argContainer) (tr : list Obs)
    (out : Outcome unit) :
  runs (initDir args : Prog unit) tr out ->
  out <> Returned tt
  /\ (forall f pw pn err,
         In (CreateConfFile_ f pw pn err) tr ->
         f = config args /\ pn = plaintextnames args
         /\ exists rest,
              tr = checkDirEmpty_ (cipherdir args) None
                   :: Base_ (Info_ ("Choose a password for protecting "
                                    ++ "your files." ++ nl))
                   :: Base_ (readPasswordTwice_ pw)
                   :: CreateConfFile_ f pw pn err :: rest)
  /\ (forall code, out = Exited code ->
        (code = 0
         /\ exists pw,
              In (CreateConfFile_ (config args) pw (plaintextnames args)
                    None) tr)
        \/ (code = ERREXIT_INIT
            /\ ((exists e,
                    tr = [ checkDirEmpty_ (cipherdir args) (Some e);
                           Base_ (Print_ ("Invalid CIPHERDIR: " ++ Error e
                                          ++ nl));
                           Base_ (Exit_ ERREXIT_INIT) ])
                \/ (exists pw e,
                       In (CreateConfFile_ (config args) pw
                             (plaintextnames args) (Some e)) tr)))).
Proof.
  unfold initDir. intros H. split; [|split].
  - intros E. cli_cases.
  - intros f pw pn err Hin. cli_cases; eauto.
  - intros code E. cli_cases.
    + right. split; [reflexivity|]. left. eauto.
    + right. split; [reflexivity|]. right. simpl. eauto 10.
    + left. split; [reflexivity|]. simpl. eauto 10.
Qed.

(** X15: [pathfsFrontend] returns a server only when [fuse.NewServer]
    succeeded, and then it is the server [fuse.NewServer] made for the
    filesystem built from the key and flags given, mounted without
    [AllowOther] and with [fsname] set to the cipher directory; the only
    way it exits is with [ERREXIT_MOUNT], after [fuse.NewServer] failed
    and the error was printed. *)
Theorem pathfsFrontend_result (key : bytes) (cdir mp : string)
    (dbg ossl pn : bool) (tr : list Obs) (out : Outcome Server) :
  runs (pathfsFrontend key cdir mp dbg ossl pn) tr out ->
  (forall srv, out = Returned srv ->
     exists fs pathFs conn,
       tr = [ NewFS_ key cdir ossl pn fs;
              NewPathNodeFs_ fs true pathFs;
              NewFileSystemConnector_ (Root pathFs)
                {| NegativeTimeout := time_Second;
                   AttrTimeout := time_Second;
                   EntryTimeout := time_Second |} conn;
              NewServer_ (RawFS conn) mp
                {| AllowOther := false;
                   Options := ["fsname=" ++ cdir];
                   Name := "gocryptfs" |} srv None;
              SetDebug_ srv dbg ])
  /\ (forall code, out = Exited code ->
        code = ERREXIT_MOUNT
        /\ exists fs opts srv err,
             In (NewServer_ fs mp opts srv (Some err)) tr
             /\ In (Base_ (Print_ ("Mount failed: " ++ Error err))) tr).
Proof.
  unfold pathfsFrontend, Cli.pathfsFrontend. intros H. split.
  - intros srv E. cli_cases. eauto.
  - intros code E. cli_cases. split; [reflexivity|].
    do 4 eexists. split; simpl; eauto 10.
Qed.


Lemma always_bind_post (P : Obs -> bool) (A B : Type) (Q : A -> Prop)
    (p : Prog A) (f : A -> Prog B) :
  always P p -> post Q p -> (forall a, Q a -> always P (f a)) ->
  always P (bind p f).
Proof.
  intros Hp Hq Hf tr out H.
  destruct (@runs_bind_inv _ _ _ _ _ _ H)
    as [(a & tr1 & tr2 & H1 & H2 & ->) | [(code & H1 & _) | (H1 & _)]].
  - rewrite forallb_app, (Hp _ _ H1), (Hf a (Hq _ _ H1) _ _ H2).
    reflexivity.
  - exact (Hp _ _ H1).
  - exact (Hp _ _ H1).
Qed.

Lemma no_return_bind_post (A B : Type) (Q : A -> Prop) (p : Prog A)
    (f : A -> Prog B) :
  post Q p -> (forall a, Q a -> no_return (f a)) -> no_return (bind p f).
Proof.
  intros Hq Hf tr b H.
  destruct (@runs_bind_inv _ _ _ _ _ _ H)
    as [(a & tr1 & tr2 & H1 & H2 & _) | [(code & _ & E) | (_ & E)]];
    try discriminate.
  exact (Hf a (Hq _ _ H1) _ _ H2).
Qed.

Lemma always_exit (P : Obs -> bool) (A : Type) (code : Z) :
  P (Base_ (Exit_ code)) = true -> always P (exit code : Prog A).
Proof.
  intros HP tr out H. simpl in H.
  destruct H as [(x & _) | H]; [destruct x|].
  injection H as -> _. simpl. now rewrite HP.
Qed.

(** A program of [loadConfig]'s kind makes calls of its own kind only. *)
Lemma always_lift_base (P : Obs -> bool) (A : Type)
    (p : Main.Prog ConfFile A) :
  (forall o, P (Base_ o) = true) -> always P (lift p : Prog A).
Proof.
  intros HP. apply always_lift. intros tr out _.
  apply forallb_forall. auto.
Qed.

Ltac always_tac :=
  repeat match goal with
         | |- always _ (Cli.Ret _) => apply always_Ret
         | |- always _ (bind _ _) => apply always_bind; [|intro; cbv beta]
         | |- always _ (Do _ _) =>
             apply always_Do;
             [intro; reflexivity | reflexivity | intro; cbv beta]
         | |- always _ (call _) => unfold call
         | |- always _ (print _) => unfold print
         | |- always _ (info _) => unfold info
         | |- always _ (exit _) => apply always_exit; reflexivity
         | |- always _ (usageText _ _) => unfold usageText
         | |- always _ (printVersion _ _) => unfold printVersion
         | |- always _ (Cli.initDir _) => unfold Cli.initDir
         | |- always _ (lift _) =>
             apply always_lift_base; intro; reflexivity
         | |- always _ (Cli.pathfsFrontend _ _ _ _ _ _ _ _) =>
             unfold Cli.pathfsFrontend
         | |- always _ (if ?b then _ else _) => destruct b eqn:?
         | |- always _ (match ?x with _ => _ end) => destruct x eqn:?
         end.

(** The phases of [main] that set [cipherdir], [config] and
    [mountpoint] keep the other flags. *)
Ltac post_tac :=
  intros ? ? ?; unfold same_flags in *; cli_cases; repeat split; auto.

Lemma initDir_no_return (args : argContainer) :
  no_return (Cli.initDir args : Prog unit).
Proof. intros tr a H. unfold Cli.initDir in H. cli_cases. Qed.

Ltac main_cases :=
  repeat (simpl in *;
          match goal with
          | H : _ \/ _ |- _ => destruct H
          | H : exists _, _ |- _ => destruct H
          | H : _ /\ _ |- _ => destruct H
          | x : Empty_set |- _ => destruct x
          | H : (_, _) = (_, _) |- _ => inversion H; clear H
          | H : Main.runs (match ?x with _ => _ end) _ _ |- _ => destruct x
          | H : Main.runs (Main.bind (match ?x with _ => _ end) _) _ _
            |- _ => destruct x
          | H : ?a = ?b |- _ =>
              first [ discriminate H | is_var a; subst a
                    | is_var b; subst b ]
          end).

Lemma changePassword_no_return (filename : string) :
  no_return (lift (changePassword filename) : Prog unit).
Proof.
  apply no_return_lift. intros tr a H.
  unfold changePassword, loadConfig in H. main_cases.
Qed.

(** X16: with [-init], whatever the other flags and arguments, [main]
    never reaches the mount code, never looks at or loads an existing
    config file and never rewraps a key; and it does not return. *)
Theorem main_init_only (args : argContainer) (positional : list string)
    (tr : list Obs) (out : Outcome unit) :
  init args = true ->
  runs (main args positional) tr out ->
  forallb (fun o => negb (is_mount o) && negb (is_conf_read o)
                    && negb (is_rewrap o)) tr = true
  /\ out <> Returned tt.
Proof.
  intros Hinit H. split.
  - revert tr out H. unfold main, Cli.main.
    apply always_bind; [always_tac | intros _; cbv beta].
    apply always_bind; [always_tac | intros _; cbv beta].
    apply always_bind; [always_tac | intros _; cbv beta].
    apply always_bind_post with (Q := same_flags args);
      [always_tac | post_tac | intros a1 Ha1; cbv beta].
    apply always_bind; [always_tac | intros _; cbv beta].
    apply always_bind_post with (Q := same_flags args);
      [always_tac | post_tac | intros a2 Ha2; cbv beta].
    apply always_bind; [always_tac | intros prof; cbv beta].
    apply always_bind; [always_tac | intros _; cbv beta].
    destruct Ha2 as (Hi & _). rewrite Hi, Hinit.
    apply always_bind_no_return; [always_tac|].
    apply no_return_bind. intros _. cbv beta. apply initDir_no_return.
  - intros E. subst out. revert H. apply (fun Hn => Hn tr tt).
    change (no_return (main args positional)). unfold main, Cli.main.
    apply no_return_bind; intros _; cbv beta.
    apply no_return_bind; intros _; cbv beta.
    apply no_return_bind; intros _; cbv beta.
    apply no_return_bind_post with (Q := same_flags args);
      [post_tac | intros a1 Ha1; cbv beta].
    apply no_return_bind; intros _; cbv beta.
    apply no_return_bind_post with (Q := same_flags args);
      [post_tac | intros a2 Ha2; cbv beta].
    apply no_return_bind; intros prof; cbv beta.
    apply no_return_bind; intros _; cbv beta.
    destruct Ha2 as (Hi & _). rewrite Hi, Hinit.
    apply no_return_bind_l.
    apply no_return_bind. intros _. cbv beta. apply initDir_no_return.
Qed.


(** X17: with [-passwd] and without [-init], [main] never reaches the
    mount code and never creates a config file; and it does not return. *)
Theorem main_passwd_only (args : argContainer) (positional : list string)
    (tr : list Obs) (out : Outcome unit) :
  init args = false ->
  passwd args = true ->
  runs (main args positional) tr out ->
  forallb (fun o => negb (is_mount o) && negb (is_create o)) tr = true
  /\ out <> Returned tt.
Proof.
  intros Hinit Hpw H. split.
  - revert tr out H. unfold main, Cli.main.
    apply always_bind; [always_tac | intros _; cbv beta].
    apply always_bind; [always_tac | intros _; cbv beta].
    apply always_bind; [always_tac | intros _; cbv beta].
    apply always_bind_post with (Q := same_flags args);
      [always_tac | post_tac | intros a1 Ha1; cbv beta].
    apply always_bind; [always_tac | intros _; cbv beta].
    apply always_bind_post with (Q := same_flags args);
      [always_tac | post_tac | intros a2 Ha2; cbv beta].
    apply always_bind; [always_tac | intros prof; cbv beta].
    apply always_bind; [always_tac | intros _; cbv beta].
    destruct Ha2 as (Hi & Hp & _). rewrite Hi, Hp, Hinit, Hpw.
    apply always_bind; [always_tac | intros _; cbv beta].
    apply always_bind_no_return; [always_tac|].
    apply no_return_bind. intros _. cbv beta.
    apply changePassword_no_return.
  - intros E. subst out. revert H. apply (fun Hn => Hn tr tt).
    change (no_return (main args positional)). unfold main, Cli.main.
    apply no_return_bind; intros _; cbv beta.
    apply no_return_bind; intros _; cbv beta.
    apply no_return_bind; intros _; cbv beta.
    apply no_return_bind_post with (Q := same_flags args);
      [post_tac | intros a1 Ha1; cbv beta].
    apply no_return_bind; intros _; cbv beta.
    apply no_return_bind_post with (Q := same_flags args);
      [post_tac | intros a2 Ha2; cbv beta].
    apply no_return_bind; intros prof; cbv beta.
    apply no_return_bind; intros _; cbv beta.
    destruct Ha2 as (Hi & Hp & _). rewrite Hi, Hp, Hinit, Hpw.
    apply no_return_bind; intros _; cbv beta.
    apply no_return_bind_l.
    apply no_return_bind. intros _. cbv beta.
    apply changePassword_no_return.
Qed.


(** X18: mounting with [-masterkey] or [-zerokey] (no [-init], no
    [-passwd]), [main] never asks for a password, never looks at or loads
    the config file, and never creates or rewrites one. *)
Theorem main_explicit_key_no_prompt (args : argContainer)
    (positional : list string) (tr : list Obs) (out : Outcome unit) :
  init args = false ->
  passwd args = false ->
  masterkey args <> "" \/ zerokey args = true ->
  runs (main args positional) tr out ->
  forallb (fun o => negb (is_prompt o) && negb (is_conf_read o)
                    && negb (is_create o) && negb (is_rewrap o)) tr
  = true.
Proof.
  intros Hinit Hpw Hkey H. revert tr out H. unfold main, Cli.main.
  apply always_bind; [always_tac | intros _; cbv beta].
  apply always_bind; [always_tac | intros _; cbv beta].
  apply always_bind; [always_tac | intros _; cbv beta].
  apply always_bind_post with (Q := same_flags args);
    [always_tac | post_tac | intros a1 Ha1; cbv beta].
  apply always_bind; [always_tac | intros _; cbv beta].
  apply always_bind_post with (Q := same_flags args);
    [always_tac | post_tac | intros a2 Ha2; cbv beta].
  apply always_bind; [always_tac | intros prof; cbv beta].
  apply always_bind; [always_tac | intros _; cbv beta].
  destruct Ha2 as (Hi & Hp & Hm & Hz & _). rewrite Hi, Hp, Hinit, Hpw.
  always_tac.
  all: exfalso; cbn in *.
  all: repeat match goal with
              | E : negb _ = false |- _ => apply negb_false_iff in E
              | E : String.eqb _ _ = true |- _ => apply String.eqb_eq in E
              end.
  all: destruct Hkey; congruence.
Qed.

Lemma split_before (K : Obs -> bool) (A B : Type) (p : Prog A)
    (f : A -> Prog B) (tr : list Obs) (out : Outcome B) (o : Obs) :
  always (fun x => negb (K x)) p ->
  K o = true ->
  runs (bind p f) tr out ->
  In o tr ->
  exists a tr1 tr2,
    runs p tr1 (Returned a) /\ runs (f a) tr2 out
    /\ tr = (tr1 ++ tr2)%list /\ In o tr2.
Proof.
  intros Hp Ho H Hin.
  assert (Hnot : forall t out', runs p t out' -> ~ In o t).
  { intros t out' Ht Hi. specialize (Hp _ _ Ht).
    rewrite forallb_forall in Hp. specialize (Hp _ Hi).
    rewrite Ho in Hp. discriminate. }
  destruct (@runs_bind_inv _ _ _ _ _ _ H)
    as [(a & tr1 & tr2 & H1 & H2 & ->) | [(code & H1 & _) | (H1 & _)]].
  - exists a, tr1, tr2. repeat split; auto.
    apply in_app_or in Hin as [Hi|Hi]; [|exact Hi].
    destruct (Hnot _ _ H1 Hi).
  - destruct (Hnot _ _ H1 Hin).
  - destruct (Hnot _ _ H1 Hin).
Qed.

Ltac skip_phase H Hin Hmono a H1 :=
  match type of Hin with
  | In ?o _ =>
      eapply (@split_before is_NewFS _ _ _ _ _ _ o)
        in H;
      [ | always_tac | reflexivity | exact Hin ]
  end;
  clear Hin;
  destruct H as (a & ? & ? & H1 & H & -> & Hin);
  cbv beta in H; apply Hmono.

(** X19: the master key and the [plaintextNames] flag that [main] hands
    to the filesystem.  With [-masterkey] the key is what
    [parseMasterKey] made of the argument; else with [-zerokey] it is
    [KEY_LEN] zero bytes; in both cases the flag is the one of the command
    line.  Otherwise the key is the master key a successful
    [LoadConfFile] returned, and the flag is what the loaded config file
    answers to [PlaintextNames], whatever the command line says. *)
Theorem main_key_provenance (args : argContainer)
    (positional : list string) (tr : list Obs) (out : Outcome unit)
    (key : bytes) (cdir : string) (ossl pn : bool) (fs : FileSystem) :
  runs (main args positional) tr out ->
  In (NewFS_ key cdir ossl pn fs) tr ->
  ossl = openssl args
  /\ ((masterkey args <> ""
       /\ In (parseMasterKey_ (masterkey args) key) tr
       /\ pn = plaintextnames args)
      \/ (masterkey args = "" /\ zerokey args = true
          /\ key = repeat Byte.x00 KEY_LEN
          /\ pn = plaintextnames args)
      \/ (masterkey args = "" /\ zerokey args = false
          /\ exists f pw confFile,
               In (Base_ (LoadConfFile_ f pw key confFile None)) tr
               /\ In (PlaintextNames_ confFile pn) tr)).
Proof.
  intros H Hin. revert H Hin. pattern tr.
  match goal with
  | |- (fun l => _ -> _ -> @?C l) tr => set (Concl := C)
  end.
  cbv beta. intros H Hin. change (Concl tr).
  assert (Hmono : forall t1 t2, Concl t2 -> Concl (t1 ++ t2)%list).
  { unfold Concl. intros t1 t2 (Ho & Hc). split; [exact Ho|].
    destruct Hc as [(? & ? & ?) | [? | (? & ? & f & pw & cf & ? & ?)]].
    - left. repeat split; auto using in_or_app.
    - right. left. assumption.
    - right. right. repeat split; auto.
      exists f, pw, cf. split; apply in_or_app; now right. }
  unfold main, Cli.main in H.
  skip_phase H Hin Hmono u1 H1. clear H1.
  skip_phase H Hin Hmono u2 H1. clear H1.
  skip_phase H Hin Hmono u3 H1. clear H1.
  skip_phase H Hin Hmono a1 H1.
  assert (Ha1 : same_flags args a1).
  { clear - H1. unfold same_flags. cli_cases; repeat split; auto. }
  clear H1.
  skip_phase H Hin Hmono u4 H1. clear H1.
  skip_phase H Hin Hmono a2 H1.
  assert (Ha2 : same_flags args a2).
  { clear - H1 Ha1. unfold same_flags in *. cli_cases; repeat split; auto. }
  clear H1 Ha1.
  skip_phase H Hin Hmono prof H1. clear H1.
  skip_phase H Hin Hmono u5 H1. clear H1.
  skip_phase H Hin Hmono u6 H1. clear H1.
  skip_phase H Hin Hmono u7 H1. clear H1.
  skip_phase H Hin Hmono u8 H1. clear H1.
  skip_phase H Hin Hmono r H1. clear H1.
  skip_phase H Hin Hmono u9 H1. clear H1.
  skip_phase H Hin Hmono err H1. clear H1.
  skip_phase H Hin Hmono u10 H1. clear H1.
  destruct Ha2 as (_ & _ & Hm & Hz & Hpn & _ & Hossl).
  unfold Concl. clear Hmono Concl.
  cbn [masterkey zerokey set_mountpoint] in H.
  rewrite Hm, Hz in H.
  destruct (String.eqb_spec (masterkey args) "") as [Em|Em];
    cbn [negb] in H.
  - destruct (zerokey args) eqn:Ez.
    + unfold Cli.pathfsFrontend in H. cli_cases.
      all: split; [assumption|]; right; left; auto.
    + unfold Cli.pathfsFrontend, loadConfig in H. cli_cases.
      all: split; [assumption|]; right; right;
        repeat split; auto; do 3 eexists; split; eauto 20.
  - unfold Cli.pathfsFrontend in H. cli_cases.
    all: split; [assumption|]; left; repeat split; auto.
Qed.


(** A run of the first lines of [main], which turn the debug logger on. *)
Lemma debug_phase_runs (b : bool) (tr : list Obs) (out : Outcome unit) :
  runs (if b
        then bind (call Debug_Enable)
               (fun _ => call (Debug_Printf ("Debug output enabled" ++ nl)))
        else Ret tt : Prog unit) tr out ->
  (out = Returned tt
   /\ tr = if b then [ DebugEnable_;
                       DebugPrintf_ ("Debug output enabled" ++ nl) ]
           else [])
  \/ (out = Stuck /\ forallb is_debug_log tr = true).
Proof.
  destruct b; intros H; cli_cases;
    repeat match goal with u : unit |- _ => destruct u end;
    first [ left; split; reflexivity | right; split; reflexivity ].
Qed.

(** X20: in the foreground and with [-version], a run of [main] that does
    not get stuck in a call prints the version line and exits with status
    0; apart from turning on the debug logger it does nothing else: no
    argument is looked at and the cipher directory is not checked. *)
Theorem main_version (args : argContainer) (positional : list string)
    (tr : list Obs) (out : Outcome unit) :
  foreground args = true ->
  version args = true ->
  runs (main args positional) tr out ->
  out <> Stuck ->
  out = Exited 0
  /\ tr = ((if debug args
            then [ DebugEnable_;
                   DebugPrintf_ ("Debug output enabled" ++ nl) ]
            else [])
           ++ [ Base_ (Print_ (PROGRAM_NAME ++ " " ++ GitVersion
                               ++ "; on-disk format "
                               ++ itoa HEADER_CURRENT_VERSION ++ nl));
                Base_ (Exit_ 0) ])%list.
Proof.
  intros Hfg Hver H Hout. unfold main, Cli.main in H.
  rewrite Hfg, Hver in H. cbn [negb] in H.
  destruct (@runs_bind_inv _ _ _ _ _ _ H)
    as [(u & t1 & t2 & H1 & H2 & ->) | [(c & H1 & ->) | (H1 & ->)]];
    clear H.
  - apply debug_phase_runs in H1 as [(_ & ->) | (E & _)];
      [|discriminate].
    cbn [bind] in H2.
    destruct (@runs_bind_inv _ _ _ _ _ _ H2)
      as [(u' & t3 & t4 & H3 & _ & _) | [(c & H3 & ->) | (_ & ->)]];
      clear H2.
    + exfalso. clear - H3. unfold printVersion in H3. cli_cases.
    + clear - H3. unfold printVersion in H3. cli_cases. split; reflexivity.
    + now destruct Hout.
  - apply debug_phase_runs in H1 as [(E & _) | (E & _)]; discriminate.
  - now destruct Hout.
Qed.

(** X21: without [-f], [main] calls [forkChild] before anything else
    except the debug logger: in every run either [forkChild] is the first
    call after the debug lines, or the run is stuck in the debug logger or
    in [forkChild] and nothing else was called. *)
Theorem main_forks_first (args : argContainer) (positional : list string)
    (tr : list Obs) (out : Outcome unit) :
  foreground args = false ->
  runs (main args positional) tr out ->
  (exists rest,
      tr = ((if debug args
             then [ DebugEnable_;
                    DebugPrintf_ ("Debug output enabled" ++ nl) ]
             else [])
            ++ forkChild_ :: rest)%list)
  \/ (out = Stuck /\ forallb is_debug_log tr = true).
Proof.
  intros Hfg H. unfold main, Cli.main in H.
  rewrite Hfg in H. cbn [negb] in H.
  destruct (@runs_bind_inv _ _ _ _ _ _ H)
    as [(u & t1 & t2 & H1 & H2 & ->) | [(c & H1 & ->) | (H1 & ->)]];
    clear H.
  - apply debug_phase_runs in H1 as [(_ & ->) | (E & _)];
      [|discriminate].
    cbn [bind call runs] in H2.
    destruct H2 as [(x & tr' & -> & _) | H2].
    + left. eauto.
    + injection H2 as -> ->. right. split; [reflexivity|].
      rewrite app_nil_r. now destruct (debug args).
  - apply debug_phase_runs in H1 as [(E & _) | (E & _)]; discriminate.
  - apply debug_phase_runs in H1 as [(E & _) | (_ & Hd)];
      [discriminate|]. auto.
Qed.

End Cli_facts.

(** ** The further properties on the sample tree and sessions *)

Section More_samples.

Import GoLib ReverseFS Demo ReverseFSExt Main MainExt.

Lemma dirIVParent_child_witness :
  dirIVParent "gocryptfs.diriv" = ""
  /\ dirIVParent ("epdt/tvc" ++ "/" ++ "gocryptfs.diriv") = "epdt/tvc".
Proof.
  destruct (@dirIVParent_child "epdt/tvc" "gocryptfs.diriv" eq_refl)
    as (H1 & H2).
  split; [exact H1 | exact (H2 eq_refl)].
Defined.

(** On the sample tree a file is reported with [OK]; and with a codec
    whose [decryptPath] fails with the error of errno 0, [GetAttr]
    answers [OK] without attributes. *)
Lemma GetAttr_attr_status_witness :
  (forall a,
      Some (set_Size (attr 11 (reg_mode 0x1a4) 10000 1) 12402) = Some a ->
      OK = OK)
  /\ (@None Attr = None -> OK = OK ->
      exists err,
        snd (decryptPath
               (host toy_encrypt (fun _ => ("", Some OK))
                  hide_conf_encrypted tree dirs)
               (lookupPath "opuft.uyu")) = Some err
        /\ errStatus
             (host toy_encrypt (fun _ => ("", Some OK))
                hide_conf_encrypted tree dirs) err = OK).
Proof.
  split.
  - exact (proj1
             (@GetAttr_attr_status crypt_host "opuft.uyu" tt
                (Some (set_Size (attr 11 (reg_mode 0x1a4) 10000 1) 12402))
                OK eq_refl)).
  - exact (proj2
             (@GetAttr_attr_status
                (host toy_encrypt (fun _ => ("", Some OK))
                   hide_conf_encrypted tree dirs)
                "opuft.uyu" tt None OK eq_refl)).
Defined.

Lemma GetAttr_dirIV_before_exclusion_witness :
  GetAttr hide_all_host "epdt/gocryptfs.diriv" tt
  = GetAttr (with_isFiltered hide_all_host (fun _ => false))
      "epdt/gocryptfs.diriv" tt
  /\ Access hide_all_host "epdt/gocryptfs.diriv" 4 tt = EPERM
  /\ Open hide_all_host "epdt/gocryptfs.diriv" O_RDONLY tt = (None, EPERM).
Proof.
  exact (@GetAttr_dirIV_before_exclusion hide_all_host
           "epdt/gocryptfs.diriv" 4 O_RDONLY tt eq_refl eq_refl).
Defined.

Lemma OpenDir_success_inv_witness :
  List.length
    [ entry (reg_mode 0x1a4) "README"; dirIVEntry ] = 2%nat
  /\ last [ entry (reg_mode 0x1a4) "README"; dirIVEntry ]
       (Build_DirEntry 0 "") = dirIVEntry.
Proof.
  destruct (@OpenDir_success_inv plain_host "docs" tt
              [ entry (reg_mode 0x1a4) "README"; dirIVEntry ] OK eq_refl)
    as (_ & _ & Hlast & _).
  split; [reflexivity | exact Hlast].
Defined.

Lemma OpenDir_first_error_witness :
  OpenDir crypt_host "epdt" tt = (None, EINVAL).
Proof.
  refine (@OpenDir_first_error crypt_host "epdt" tt "docs" [] []
            (entry (reg_mode 0x1a4) "README") OK EINVAL
            eq_refl eq_refl _ eq_refl).
  intros x [].
Defined.


Lemma OpenDir_dirIV_entry_GetAttr_witness :
  exists a',
    GetAttr plain_host "docs/gocryptfs.diriv" tt = Returns (Some a', OK)
    /\ Mode a' = DirIVMode
    /\ Size a' = DirIVLen
    /\ Ino a' = 13.
Proof.
  refine (@OpenDir_dirIV_entry_GetAttr plain_host "docs" tt
            [ entry (reg_mode 0x1a4) "README"; dirIVEntry ] OK
            (attr 13 (dir_mode 0x1ed) 4096 2)
            (or_intror eq_refl) eq_refl eq_refl eq_refl _).
  discriminate.
Defined.

Lemma loadConfig_prompt_after_stat_witness :
  exists rest,
    fst (exec (session disk0 "old-password" "new-password")
           (loadConfig "/c/gocryptfs.conf"))
    = Stat_ "/c/gocryptfs.conf" None :: Print_ "Password: "
      :: readPassword_ "old-password" :: rest.
Proof.
  destruct (@loadConfig_prompt_after_stat ToyConf "/c/gocryptfs.conf" _ _
              (exec_runs (session disk0 "old-password" "new-password")
                 (loadConfig "/c/gocryptfs.conf"))) as (H & _).
  apply H. simpl. auto.
Defined.

Lemma loadConfig_warn_bracket_witness :
  warn_state
    (fst (exec (session disk0 "oops" "new-password")
            (loadConfig "/c/gocryptfs.conf"))) true = true.
Proof.
  destruct (@loadConfig_warn_bracket ToyConf "/c/gocryptfs.conf" _ _
              (exec_runs (session disk0 "oops" "new-password")
                 (loadConfig "/c/gocryptfs.conf"))) as (_ & H).
  apply H. discriminate.
Defined.

Lemma changePassword_exit_witness :
  snd (exec (session disk0 "old-password" "new-password")
         (changePassword "/c/gocryptfs.conf")) <> Returned tt
  /\ snd (exec (session disk0 "oops" "new-password")
            (changePassword "/c/gocryptfs.conf")) <> Returned tt.
Proof.
  split.
  - exact (proj1 (@changePassword_exit ToyConf "/c/gocryptfs.conf" _ _
                    (exec_runs
                       (session disk0 "old-password" "new-password")
                       (changePassword "/c/gocryptfs.conf")))).
  - exact (proj1 (@changePassword_exit ToyConf "/c/gocryptfs.conf" _ _
                    (exec_runs (session disk0 "oops" "new-password")
                       (changePassword "/c/gocryptfs.conf")))).
Defined.

End More_samples.

Section Cli_samples.

Import Main Cli.

Lemma initDir_exit_witness :
  exists pw,
    In (CreateConfFile_ (config (with_init args_f)) pw
          (plaintextnames (with_init args_f)) None)
      (fst (exec (sample_oracle disk1 "old-password" "new")
              (initDir (with_init args_f)))).
Proof.
  destruct (initDir_exit
              (cli_exec_runs (sample_oracle disk1 "old-password" "new")
                 (initDir (with_init args_f)))) as (_ & _ & H).
  destruct (H 0 eq_refl) as [(_ & H0) | (H0 & _)];
    [exact H0 | discriminate H0].
Defined.

Lemma pathfsFrontend_result_witness :
  exists fs pathFs conn,
    fst (exec (sample_oracle disk1 "old-password" "new")
           (pathfsFrontend (fun x : bytes => x) (fun x : bytes => x)
              key0 "/abs/c" "/abs/m" false true true))
    = [ NewFS_ key0 "/abs/c" true true fs;
        NewPathNodeFs_ fs true pathFs;
        NewFileSystemConnector_ pathFs
          {| NegativeTimeout := time_Second;
             AttrTimeout := time_Second;
             EntryTimeout := time_Second |} conn;
        NewServer_ conn "/abs/m"
          {| AllowOther := false;
             Options := ["fsname=/abs/c"];
             Name := "gocryptfs" |} "/abs/m" None;
        SetDebug_ "/abs/m" false ].
Proof.
  destruct (pathfsFrontend_result
              (cli_exec_runs (sample_oracle disk1 "old-password" "new")
                 (pathfsFrontend (fun x : bytes => x)
                    (fun x : bytes => x)
                    key0 "/abs/c" "/abs/m" false true true)))
    as (H & _).
  exact (H "/abs/m" eq_refl).
Defined.

Lemma main_init_only_witness :
  forallb (fun o => negb (is_mount o) && negb (is_conf_read o)
                    && negb (is_rewrap o))
    (fst (exec (sample_oracle disk1 "old-password" "new")
            (sample_main (with_init args_f) ["c"]))) = true
  /\ snd (exec (sample_oracle disk1 "old-password" "new")
            (sample_main (with_init args_f) ["c"])) <> Returned tt.
Proof.
  exact (@main_init_only _ _ _ _ _ _ _ _
           (fun x : bytes => x) (fun x : bytes => x) 32
           "gocryptfs.conf" 2 "v0.4"
           (with_init args_f) ["c"] _ _
           eq_refl
           (cli_exec_runs (sample_oracle disk1 "old-password" "new")
              (sample_main (with_init args_f) ["c"]))).
Defined.

Lemma main_passwd_only_witness :
  forallb (fun o => negb (is_mount o) && negb (is_create o))
    (fst (exec (sample_oracle disk1 "old-password" "new")
            (sample_main (with_passwd args_f) ["c"]))) = true
  /\ snd (exec (sample_oracle disk1 "old-password" "new")
            (sample_main (with_passwd args_f) ["c"])) <> Returned tt.
Proof.
  exact (@main_passwd_only _ _ _ _ _ _ _ _
           (fun x : bytes => x) (fun x : bytes => x) 32
           "gocryptfs.conf" 2 "v0.4"
           (with_passwd args_f) ["c"] _ _
           eq_refl eq_refl
           (cli_exec_runs (sample_oracle disk1 "old-password" "new")
              (sample_main (with_passwd args_f) ["c"]))).
Defined.

Lemma main_explicit_key_no_prompt_witness :
  forallb (fun o => negb (is_prompt o) && negb (is_conf_read o)
                    && negb (is_create o) && negb (is_rewrap o))
    (fst (exec (sample_oracle disk1 "old-password" "new")
            (sample_main (with_zerokey args_f) ["c"; "m"]))) = true.
Proof.
  exact (@main_explicit_key_no_prompt _ _ _ _ _ _ _ _
           (fun x : bytes => x) (fun x : bytes => x) 32
           "gocryptfs.conf" 2 "v0.4"
           (with_zerokey args_f) ["c"; "m"] _ _
           eq_refl eq_refl (or_intror eq_refl)
           (cli_exec_runs (sample_oracle disk1 "old-password" "new")
              (sample_main (with_zerokey args_f) ["c"; "m"]))).
Defined.

Lemma main_key_provenance_witness :
  exists f pw confFile,
    In (Base_ (LoadConfFile_ f pw key0 confFile None))
      (fst (exec (sample_oracle disk1 "old-password" "new")
              (sample_main args_f ["c"; "m"])))
    /\ In (PlaintextNames_ confFile true)
         (fst (exec (sample_oracle disk1 "old-password" "new")
                 (sample_main args_f ["c"; "m"]))).
Proof.
  assert (Hin : In (NewFS_ key0 "/abs/c" true true key0)
                  (fst (exec (sample_oracle disk1 "old-password" "new")
                          (sample_main args_f ["c"; "m"])))).
  { simpl. do 14 right. left. reflexivity. }
  destruct (@main_key_provenance _ _ _ _ _ _ _ _
              (fun x : bytes => x) (fun x : bytes => x) 32
              "gocryptfs.conf" 2 "v0.4" args_f ["c"; "m"] _ _
              key0 "/abs/c" true true key0
              (cli_exec_runs (sample_oracle disk1 "old-password" "new")
                 (sample_main args_f ["c"; "m"])) Hin)
    as (_ & [(H & _) | [(_ & H & _) | (_ & _ & H)]]).
  - exfalso. apply H. reflexivity.
  - discriminate H.
  - exact H.
Defined.

Lemma main_version_witness :
  snd (exec (sample_oracle disk1 "old-password" "new")
         (sample_main (with_version args_f) [])) = Exited 0
  /\ fst (exec (sample_oracle disk1 "old-password" "new")
            (sample_main (with_version args_f) []))
     = [ DebugEnable_; DebugPrintf_ ("Debug output enabled" ++ nl);
         Base_ (Print_ ("gocryptfs v0.4; on-disk format 2" ++ nl));
         Base_ (Exit_ 0) ].
Proof.
  refine (@main_version _ _ _ _ _ _ _ _
           (fun x : bytes => x) (fun x : bytes => x) 32
           "gocryptfs.conf" 2 "v0.4"
           (with_version args_f) [] _ _
           eq_refl eq_refl
            (cli_exec_runs (sample_oracle disk1 "old-password" "new")
               (sample_main (with_version args_f) [])) _).
  discriminate.
Defined.

Lemma main_forks_first_witness :
  (exists rest,
      fst (exec (sample_oracle disk1 "old-password" "new")
             (sample_main (with_background args_f) ["c"; "m"]))
      = [ DebugEnable_; DebugPrintf_ ("Debug output enabled" ++ nl);
          forkChild_ ] ++ rest)%list
  \/ (snd (exec (sample_oracle disk1 "old-password" "new")
             (sample_main (with_background args_f) ["c"; "m"])) = Stuck
      /\ forallb is_debug_log
           (fst (exec (sample_oracle disk1 "old-password" "new")
                   (sample_main (with_background args_f) ["c"; "m"])))
         = true).
Proof.
  exact (@main_forks_first _ _ _ _ _ _ _ _
           (fun x : bytes => x) (fun x : bytes => x) 32
           "gocryptfs.conf" 2 "v0.4"
           (with_background args_f) ["c"; "m"] _ _
           eq_refl
           (cli_exec_runs (sample_oracle disk1 "old-password" "new")
              (sample_main (with_background args_f) ["c"; "m"]))).
Defined.

End Cli_samples.
